(** * Articles MCP adapter: shallow embedding of the search/fetch tools.

    Main model: the [MyMCP] agent of [src/unnamed/part_000], lines 1-234
    (search with fixed limit 20, [transformSearchResults] with the two
    body-text branches, [createSnippet] with default 512, [buildArticleUrl]
    with the configured base URL, [callStrapiAPI] with the parse-failure
    sentinel, and a [fetch] handler that rethrows).
    The query classifier ([isGetAllQuery], [isLatestQuery]) only exists in
    the second agent of the same file, lines 235-458; it is embedded in
    module [Classifier].

    Characters are 8-bit (read as Latin-1 code points). The numbers the
    code handles are integral: a JS number is an integer [JNum z] (the
    value of a double), [JNaN] or [JInf neg]; [parseInt] rounds its digit
    value to the nearest double. *)

From Stdlib Require Import ZArith Lia List Bool Ascii String.
From Stdlib Require Import Numbers.DecimalString.
Import ListNotations.
Open Scope string_scope.
Set Warnings "-register-all".

(** ** JavaScript values *)

Inductive jsval : Type :=
| JUndef
| JNull
| JBool (b : bool)
| JNum (z : Z)
| JNaN
| JStr (s : string)
| JArr (l : list jsval)
| JObj (fields : list (string * jsval))
| JInf (negative : bool)                 (* Infinity, -Infinity *)
| JFun (name : string) (arity : nat).    (* a built-in method *)

(** JS truthiness, used by [||], [!] and [if]. *)
Definition truthy (v : jsval) : bool :=
  match v with
  | JUndef | JNull | JNaN => false
  | JBool b => b
  | JNum z => negb (Z.eqb z 0)
  | JStr s => negb (String.eqb s "")
  | JArr _ | JObj _ | JInf _ | JFun _ _ => true
  end.

(** [a || b] *)
Definition jsor (a b : jsval) : jsval := if truthy a then a else b.

Fixpoint assoc (k : string) (fs : list (string * jsval)) : jsval :=
  match fs with
  | [] => JUndef
  | (k', v) :: fs' => if String.eqb k k' then v else assoc k fs'
  end.

(** Property read [v.k] on a value that is not [null]/[undefined]:
    own fields of objects, [length] of strings and arrays, the [name] and
    [length] of a function, and [undefined] otherwise. Of the names the
    code reads, only [link] is found on a prototype: a string inherits the
    method [String.prototype.link], of arity 1. *)
Definition prop (v : jsval) (k : string) : jsval :=
  match v with
  | JObj fs => assoc k fs
  | JStr s =>
      if String.eqb k "length" then JNum (Z.of_nat (String.length s))
      else if String.eqb k "link" then JFun "link" 1
      else JUndef
  | JArr l => if String.eqb k "length" then JNum (Z.of_nat (List.length l)) else JUndef
  | JFun n a =>
      if String.eqb k "name" then JStr n
      else if String.eqb k "length" then JNum (Z.of_nat a)
      else JUndef
  | _ => JUndef
  end.

(** Optional chaining [v?.k]. *)
Definition oprop (v : jsval) (k : string) : jsval :=
  match v with
  | JUndef | JNull => JUndef
  | _ => prop v k
  end.

Definition is_array (v : jsval) : bool :=
  match v with JArr _ => true | _ => false end.

Definition Z_to_string (z : Z) : string :=
  NilEmpty.string_of_int (Z.to_int z).

(** The string [String(v)] produces when it does not throw (see
    [js_ToString]); array elements that are [null]/[undefined] print as
    the empty string, as [Array.prototype.join] does. *)
Fixpoint js_to_string (v : jsval) : string :=
  match v with
  | JUndef => "undefined"
  | JNull => "null"
  | JBool true => "true"
  | JBool false => "false"
  | JNum z => Z_to_string z
  | JNaN => "NaN"
  | JStr s => s
  | JArr l =>
      let elem (x : jsval) : string :=
        match x with
        | JUndef | JNull => ""
        | _ => js_to_string x
        end in
      let fix join (l : list jsval) : string :=
        match l with
        | [] => ""
        | [x] => elem x
        | x :: l' => elem x ++ "," ++ join l'
        end in
      join l
  | JObj _ => "[object Object]"
  | JInf false => "Infinity"
  | JInf true => "-Infinity"
  | JFun n _ => "function " ++ n ++ "() { [native code] }"
  end.

(** Whether [String(v)] throws: an object with an own [toString] key
    (in data decoded from JSON never a function) makes [ToPrimitive] skip
    both [toString] and the inherited [valueOf], which returns the object
    itself, so a [TypeError] is thrown; an array throws when one of its
    elements does, through [join]. *)
Fixpoint to_string_throws (v : jsval) : bool :=
  match v with
  | JObj fs => existsb (fun kv => String.eqb (fst kv) "toString") fs
  | JArr l =>
      let fix any (l : list jsval) : bool :=
        match l with
        | [] => false
        | x :: l' => to_string_throws x || any l'
        end in
      any l
  | _ => false
  end.

(** ** Exceptions *)

(** What the code can throw. *)
Inductive error : Type :=
| TransportError                         (* rejected [fetch(...)] *)
| HttpError (status : Z) (body : string) (* [HTTP ${status}: ... - ${errorText}] *)
| BodySyntaxError                        (* [response.json()] rejects *)
| ApiError (msg : string)                (* [new Error(m)]: its message is [String(m)] *)
| TypeError                              (* property read on null, missing method *)
| NotFound.                              (* [new Error("Document not found")] *)

Inductive exc (A : Type) : Type :=
| Ok (a : A)
| Throw (e : error).
Arguments Ok {A} a.
Arguments Throw {A} e.

Definition bind {A B} (m : exc A) (k : A -> exc B) : exc B :=
  match m with
  | Ok a => k a
  | Throw e => Throw e
  end.

Notation "x <- m ;; k" := (bind m (fun x => k))
  (at level 61, m at next level, right associativity).

(** [String(v)], and [ToString] in template literals, [toString()],
    [JSON.parse] and [new Error]. *)
Definition js_ToString (v : jsval) : exc string :=
  if to_string_throws v then Throw TypeError else Ok (js_to_string v).

(** Property read [v.k] that throws on [null]/[undefined]. *)
Definition get (v : jsval) (k : string) : exc jsval :=
  match v with
  | JUndef | JNull => Throw TypeError
  | _ => Ok (prop v k)
  end.

Fixpoint mapM {A B} (f : nat -> A -> exc B) (i : nat) (l : list A) : exc (list B) :=
  match l with
  | [] => Ok []
  | x :: l' => y <- f i x ;; ys <- mapM f (S i) l' ;; Ok (y :: ys)
  end.

(** ** String primitives *)

(** [s.substring(0, n)] *)
Fixpoint take (n : nat) (s : string) : string :=
  match n, s with
  | O, _ => ""
  | S n', String c s' => String c (take n' s')
  | S _, EmptyString => ""
  end.

(** [s.lastIndexOf(c)], [-1] when absent. *)
Fixpoint lastIndexOf_from (c : ascii) (i : Z) (s : string) : Z :=
  match s with
  | EmptyString => -1
  | String d s' =>
      let r := lastIndexOf_from c (i + 1) s' in
      if Z.eqb r (-1) then (if Ascii.eqb c d then i else -1) else r
  end.

Definition lastIndexOf (c : ascii) (s : string) : Z := lastIndexOf_from c 0 s.

(** [s.startsWith(p)] *)
Definition startsWith (s p : string) : bool := String.prefix p s.

(** ** Snippet builder ([createSnippet], part_000 lines 147-157) *)

(** [lastSpace > maxLength * 0.8] is compared exactly as [5 * lastSpace >
    4 * maxLength]: for integral [maxLength] below 2^53 the double product
    never crosses an integer. *)
Definition snippet_str (text : string) (maxLength : nat) : string :=
  if Nat.leb (String.length text) maxLength then text
  else
    let snippet := take maxLength text in
    let lastSpace := lastIndexOf " "%char snippet in
    if Z.ltb (4 * Z.of_nat maxLength) (5 * lastSpace)
    then take (Z.to_nat lastSpace) snippet ++ "..."
    else snippet ++ "...".

(** [s.includes(sub)] *)
Fixpoint includes (s sub : string) : bool :=
  String.prefix sub s ||
  match s with
  | EmptyString => false
  | String _ s' => includes s' sub
  end.

(** JS white space and line terminators within Latin-1. *)
Definition is_js_space (c : ascii) : bool :=
  let n := nat_of_ascii c in
  (Nat.leb 9 n && Nat.leb n 13) || Nat.eqb n 32 || Nat.eqb n 160.

Fixpoint trim_start (s : string) : string :=
  match s with
  | String c s' => if is_js_space c then trim_start s' else s
  | EmptyString => EmptyString
  end.

Fixpoint rev_str (s : string) (acc : string) : string :=
  match s with
  | EmptyString => acc
  | String c s' => rev_str s' (String c acc)
  end.

(** [s.trim()] *)
Definition trim (s : string) : string :=
  rev_str (trim_start (rev_str (trim_start s) "")) "".

(** [toLowerCase] on one Latin-1 code point. *)
Definition lower_char (c : ascii) : ascii :=
  let n := nat_of_ascii c in
  if (Nat.leb 65 n && Nat.leb n 90)
     || (Nat.leb 192 n && Nat.leb n 222 && negb (Nat.eqb n 215))
  then ascii_of_nat (n + 32) else c.

Fixpoint toLowerCase (s : string) : string :=
  match s with
  | EmptyString => EmptyString
  | String c s' => String (lower_char c) (toLowerCase s')
  end.

(** ** [parseInt] *)

Definition digit_val (radix : Z) (c : ascii) : option Z :=
  let n := Z.of_nat (nat_of_ascii c) in
  let d :=
    if Z.leb 48 n && Z.leb n 57 then Some (n - 48)%Z
    else if Z.leb 97 n && Z.leb n 122 then Some (n - 87)%Z
    else if Z.leb 65 n && Z.leb n 90 then Some (n - 55)%Z
    else None in
  match d with
  | Some v => if Z.ltb v radix then Some v else None
  | None => None
  end.

(** Digit values of the longest prefix of radix-[radix] digits. *)
Fixpoint leading_digits (radix : Z) (s : string) : list Z :=
  match s with
  | EmptyString => []
  | String c s' =>
      match digit_val radix c with
      | Some v => v :: leading_digits radix s'
      | None => []
      end
  end.

Definition digits_value (radix : Z) (ds : list Z) : Z :=
  fold_left (fun acc d => acc * radix + d)%Z ds 0%Z.

(** ** Numbers *)

(** The double nearest to a positive integer (ties to even), for [n > 0]:
    53 significant bits are kept. *)
Definition round_pos (n : Z) : Z :=
  let e := Z.log2 n in
  if Z.ltb e 53 then n
  else
    let sh := (e - 52)%Z in
    let q := Z.shiftr n sh in
    let r := (n - Z.shiftl q sh)%Z in
    let half := Z.shiftl 1 (sh - 1) in
    let q' := if Z.ltb half r || (Z.eqb r half && Z.odd q) then (q + 1)%Z else q in
    Z.shiftl q' sh.

(** The JS number of the mathematical integer [z]: rounded to a double,
    [Infinity] from 2^1024 on. [-0] is collapsed to [0]. *)
Definition number_of_Z (z : Z) : jsval :=
  let a := round_pos (Z.abs z) in
  if Z.leb (2 ^ 1024) a then JInf (Z.ltb z 0)
  else JNum (if Z.ltb z 0 then (- a)%Z else a).

(** A mathematical integer value read as a JS number; NaN stays NaN. *)
Definition round_number (v : jsval) : jsval :=
  match v with
  | JNum z => number_of_Z z
  | _ => v
  end.

(** [parseInt(s)] with no radix: leading white space skipped, one optional
    sign, a [0x]/[0X] prefix selects base 16, then the longest digit run,
    whose value is rounded to a double; NaN when that run is empty. [-0]
    is collapsed to [0]. *)
Definition parseInt (s : string) : jsval :=
  let s1 := trim_start s in
  let '(sign, s2) :=
    match s1 with
    | String c r =>
        if Ascii.eqb c "-"%char then ((-1)%Z, r)
        else if Ascii.eqb c "+"%char then (1%Z, r)
        else (1%Z, s1)
    | EmptyString => (1%Z, s1)
    end in
  let '(radix, s3) :=
    match s2 with
    | String z (String x r) =>
        if Ascii.eqb z "0"%char && (Ascii.eqb x "x"%char || Ascii.eqb x "X"%char)
        then (16%Z, r) else (10%Z, s2)
    | _ => (10%Z, s2)
    end in
  match leading_digits radix s3 with
  | [] => JNaN
  | ds => number_of_Z (sign * digits_value radix ds)%Z
  end.

(** [String.prototype.substring] from index [n] on. *)
Fixpoint drop (n : nat) (s : string) : string :=
  match n, s with
  | O, _ => s
  | S n', String _ s' => drop n' s'
  | S _, EmptyString => EmptyString
  end.

(** The mathematical value of a numeric string: NaN, a signed infinity, or
    [(-1)^negative * m * 10^e]. *)
Inductive numval : Type :=
| NumNaN
| NumInf (negative : bool)
| NumFin (negative : bool) (m : Z) (e : Z).

(** The optional exponent part [e5], [E+5], [e-5] at the end of a numeric
    literal: its value, or None when the rest is not one. *)
Definition exponent_part (s : string) : option Z :=
  match s with
  | EmptyString => Some 0%Z
  | String c r =>
      if Ascii.eqb c "e"%char || Ascii.eqb c "E"%char then
        let '(sg, r') :=
          match r with
          | String d r'' =>
              if Ascii.eqb d "+"%char then (1%Z, r'')
              else if Ascii.eqb d "-"%char then ((-1)%Z, r'')
              else (1%Z, r)
          | EmptyString => (1%Z, r)
          end in
        let ds := leading_digits 10 r' in
        if negb (Nat.eqb (List.length ds) 0) && Nat.eqb (List.length ds) (String.length r')
        then Some (sg * digits_value 10 ds)%Z else None
      else None
  end.

(** An unsigned decimal literal [12], [12.], [.5], [1.5e3]: mantissa and
    exponent. *)
Definition unsigned_decimal (s : string) : option (Z * Z) :=
  let ip := leading_digits 10 s in
  let r1 := drop (List.length ip) s in
  let '(fp, r2) :=
    match r1 with
    | String c r =>
        if Ascii.eqb c "."%char
        then let fp := leading_digits 10 r in (fp, drop (List.length fp) r)
        else ([], r1)
    | EmptyString => ([], r1)
    end in
  if Nat.eqb (List.length ip + List.length fp) 0 then None
  else
    match exponent_part r2 with
    | Some x => Some (digits_value 10 (ip ++ fp), x - Z.of_nat (List.length fp))%Z
    | None => None
    end.

(** [StringToNumber] (used by [Number(s)] and by [<=] on a string): white
    space trimmed, the empty string is 0, [0x]/[0o]/[0b] literals without
    sign, an optionally signed [Infinity] or decimal literal, NaN for
    anything else. *)
Definition string_to_number (s : string) : numval :=
  let t := trim s in
  match t with
  | EmptyString => NumFin false 0 0
  | String c r =>
      let prefixed :=
        match r with
        | String x r' =>
            if Ascii.eqb c "0"%char then
              let radix :=
                if Ascii.eqb x "x"%char || Ascii.eqb x "X"%char then 16%Z
                else if Ascii.eqb x "o"%char || Ascii.eqb x "O"%char then 8%Z
                else if Ascii.eqb x "b"%char || Ascii.eqb x "B"%char then 2%Z
                else 0%Z in
              if Z.eqb radix 0 then None
              else
                let ds := leading_digits radix r' in
                if negb (Nat.eqb (List.length ds) 0)
                   && Nat.eqb (List.length ds) (String.length r')
                then Some (NumFin false (digits_value radix ds) 0)
                else Some NumNaN
            else None
        | EmptyString => None
        end in
      match prefixed with
      | Some v => v
      | None =>
          let '(neg, u) :=
            if Ascii.eqb c "-"%char then (true, r)
            else if Ascii.eqb c "+"%char then (false, r)
            else (false, t) in
          if String.eqb u "Infinity" then NumInf neg
          else
            match unsigned_decimal u with
            | Some (m, e) => NumFin neg m e
            | None => NumNaN
            end
      end
  end.

(** [x <= n] once [x] is rounded to a double, for an integral [n] below
    2^53. The doubles round to at most [n] exactly the reals up to
    [n + 2^(log2 n - 53)], the midpoint to the next double, which itself
    rounds down iff [n] is an even significand (always below 2^52); for
    [n = 0] the bound is the midpoint [2^-1075] to the least subnormal. *)
Definition num_le_nat (x : numval) (n : nat) : bool :=
  let N := Z.of_nat n in
  match x with
  | NumNaN => false
  | NumInf neg => neg
  | NumFin true _ _ => true
  | NumFin false m e =>
      if Z.eqb N 0 then
        if Z.leb 0 e then Z.eqb m 0 else Z.leb (m * 2 ^ 1075) (10 ^ (- e))
      else
        let E := Z.log2 N in
        let k := (53 - E)%Z in
        let '(lhs, rhs) :=
          if Z.leb 0 e then (m * 10 ^ e * 2 ^ k, N * 2 ^ k + 1)%Z
          else (m * 2 ^ k, (N * 2 ^ k + 1) * 10 ^ (- e))%Z in
        if Z.ltb E 52 || Z.even N then Z.leb lhs rhs else Z.ltb lhs rhs
  end.

(** [v <= n] for a number [n] below 2^53: [undefined] and NaN compare
    false, [null] is 0, booleans 0 and 1, strings go through
    [StringToNumber], objects and arrays through [ToPrimitive], which is
    their [String(v)] (and may throw), and a function's source text is
    NaN. *)
Definition js_le (v : jsval) (n : nat) : exc bool :=
  match v with
  | JUndef | JNaN => Ok false
  | JNull => Ok true
  | JBool b => Ok (if b then Nat.leb 1 n else true)
  | JNum z => Ok (Z.leb z (Z.of_nat n))
  | JInf neg => Ok neg
  | JStr s => Ok (num_le_nat (string_to_number s) n)
  | JArr _ | JObj _ => s <- js_ToString v ;; Ok (num_le_nat (string_to_number s) n)
  | JFun _ _ => Ok false
  end.

(** [createSnippet(text, maxLength)] on an arbitrary value: falsy values
    come back unchanged; strings are cut; any other value comes back
    unchanged when [text.length <= maxLength] holds, and otherwise reaches
    [text.substring], which it does not have: [TypeError]. *)
Definition createSnippet (text : jsval) (maxLength : nat) : exc jsval :=
  if negb (truthy text) then Ok text
  else
    match text with
    | JStr s => Ok (JStr (snippet_str s maxLength))
    | _ =>
        le <- js_le (prop text "length") maxLength ;;
        if le then Ok text else Throw TypeError
    end.

(** ** Backend client ([callStrapiAPI], part_000 lines 179-220) *)

(** What the host supplies: [JSON.parse] (None when it throws) and the
    successive results of [Math.random().toString()]. *)
Record platform : Type := {
  json_parse : string -> option jsval;
  math_random : nat -> string
}.

(** The outcome of the [fetch(apiUrl, ...)] exchange. *)
Inductive http_outcome : Type :=
| NetFail
| HttpResp (ok : bool) (status : Z) (body : string).

Record request : Type := {
  req_name : string;
  req_args : list (string * jsval)
}.

Definition parse_failure_sentinel : jsval :=
  JObj [("articles", JArr []); ("error", JStr "Failed to parse JSON response")].

Definition first_elem (v : jsval) : jsval :=
  match v with
  | JArr (x :: _) => x
  | _ => JUndef
  end.

Definition callStrapiAPI (pf : platform) (o : http_outcome) : exc jsval :=
  match o with
  | NetFail => Throw TransportError
  | HttpResp false status body => Throw (HttpError status body)
  | HttpResp true _ body =>
      match json_parse pf body with
      | None => Throw BodySyntaxError
      | Some data =>
          err <- get data "error" ;;
          if truthy err then
            m <- get err "message" ;;
            msg <- js_ToString (jsor m (JStr "API returned error")) ;;
            Throw (ApiError msg)
          else
            let content := prop data "content" in
            let text := oprop (first_elem content) "text" in
            if truthy content && is_array content && truthy text then
              (* [JSON.parse(text)] converts [text] inside the [try] *)
              match js_ToString text with
              | Throw _ => Ok parse_failure_sentinel
              | Ok t =>
                  match json_parse pf t with
                  | Some parsed => Ok parsed
                  | None => Ok parse_failure_sentinel
                  end
              end
            else Ok data
      end
  end.

(** A handler: a program that calls the backend and resumes with the
    outcome. *)
Inductive prog (A : Type) : Type :=
| Ret (a : A)
| Call (r : request) (k : http_outcome -> prog A).
Arguments Ret {A} a.
Arguments Call {A} r k.

Fixpoint run {A} (p : prog A) (backend : request -> http_outcome) : A :=
  match p with
  | Ret a => a
  | Call r k => run (k (backend r)) backend
  end.

Definition first_request {A} (p : prog A) : option request :=
  match p with
  | Ret _ => None
  | Call r _ => Some r
  end.

(** ** Article normaliser *)

Definition default_strapi_url : string :=
  "https://timely-benefit-e63d540317.strapiapp.com".

(** [this.env?.STRAPI_URL || "https://timely-benefit-..."] *)
Definition base_url (env : jsval) : jsval :=
  jsor (oprop env "STRAPI_URL") (JStr default_strapi_url).

(** [buildArticleUrl(article)], part_000 lines 160-171. *)
Definition buildArticleUrl (env : jsval) (article : jsval) : exc jsval :=
  let baseUrl := base_url env in
  url <- get article "url" ;;
  if truthy url then
    match url with
    | JStr u =>
        if startsWith u "http" then Ok url
        else b <- js_ToString baseUrl ;; Ok (JStr (b ++ u))
    | _ => Throw TypeError
    end
  else
    b <- js_ToString baseUrl ;;
    i <- js_ToString (jsor (prop article "articleId") (prop article "id")) ;;
    Ok (JStr (b ++ "/blog/" ++ i)).

Definition no_content : jsval := JStr "No content available".

(** The [textContent] of [transformSearchResults], part_000 lines 104-111. *)
Definition search_text (article : jsval) : jsval :=
  let summary := prop article "summary" in
  let excerpt := prop article "excerpt" in
  if truthy summary || truthy excerpt then
    jsor summary (jsor excerpt (jsor (prop article "description") no_content))
  else
    jsor (prop article "fullContent")
      (jsor (prop article "description") (jsor summary no_content)).

(** [v?.toString()]: [undefined] on [null]/[undefined]; the method of
    the value's prototype otherwise, which throws exactly when [String(v)]
    does. *)
Definition opt_toString (v : jsval) : exc jsval :=
  match v with
  | JUndef | JNull => Ok JUndef
  | _ => s <- js_ToString v ;; Ok (JStr s)
  end.

Record search_doc : Type := {
  sd_id : jsval;
  sd_title : jsval;
  sd_text : jsval;
  sd_url : jsval
}.

Definition snippet_max : nat := 512.

(** One element of [searchResponse.map(...)], part_000 lines 102-122;
    [index] picks the [Math.random()] draw. *)
Definition transformSearchArticle (pf : platform) (env : jsval)
    (index : nat) (article : jsval) : exc search_doc :=
  _ <- get article "summary" ;;
  let textContent := search_text article in
  idv <- opt_toString (prop article "id") ;;
  let id := jsor idv (JStr (math_random pf index)) in
  let title := jsor (prop article "title") (JStr "Untitled Article") in
  text <- createSnippet textContent snippet_max ;;
  url <- buildArticleUrl env article ;;
  Ok {| sd_id := id; sd_title := title; sd_text := text; sd_url := url |}.

(** [transformSearchResults(searchResponse)], part_000 lines 97-123. *)
Definition transformSearchResults (pf : platform) (env : jsval)
    (searchResponse : jsval) : exc (list search_doc) :=
  match searchResponse with
  | JArr l => mapM (transformSearchArticle pf env) 0 l
  | _ => Ok []
  end.

(** The [text] of [transformFetchResult], part_000 line 133. *)
Definition fetch_text (article : jsval) : jsval :=
  jsor (prop article "content")
    (jsor (prop article "fullContent")
       (jsor (prop article "description")
          (jsor (prop article "summary") no_content))).

Record fetch_doc : Type := {
  fd_id : jsval;
  fd_title : jsval;
  fd_text : jsval;
  fd_url : jsval;
  fd_metadata : list (string * jsval)
}.

(** [transformFetchResult(article)], part_000 lines 126-144. *)
Definition transformFetchResult (env : jsval) (article : jsval) : exc fetch_doc :=
  idv <- get article "id" ;;
  ids <- opt_toString idv ;;
  let id := jsor ids (JStr "unknown") in
  let title := jsor (prop article "title") (JStr "Untitled Article") in
  let text := fetch_text article in
  url <- buildArticleUrl env article ;;
  Ok {| fd_id := id; fd_title := title; fd_text := text; fd_url := url;
        fd_metadata := [("author", prop article "author");
                        ("publishedAt", prop article "publishedAt");
                        ("category", prop article "category");
                        ("source", JStr "Keepnet Labs Blog")] |}.

(** ** Tool handlers (part_000 lines 14-94) *)

Inductive payload : Type :=
| PSearch (docs : list search_doc)
| PFetch (doc : fetch_doc).

(** A handler either returns a content envelope or raises. *)
Inductive tool_result : Type :=
| Returned (p : payload)
| Raised (e : error).

Definition search_request (query : string) : request :=
  if String.eqb (trim query) "*"
  then {| req_name := "get_all_articles"; req_args := [("limit", JNum 20)] |}
  else {| req_name := "search_articles";
          req_args := [("query", JStr query); ("limit", JNum 20)] |}.

(** The part of the [try] block that runs after the request is sent. *)
Definition search_body (pf : platform) (env : jsval) (o : http_outcome)
    : exc (list search_doc) :=
  raw <- callStrapiAPI pf o ;;
  let articles := jsor (oprop raw "articles") (JArr []) in
  match prop articles "length" with
  | JNum 0 => Ok []
  | _ => if is_array articles then transformSearchResults pf env articles else Ok []
  end.

(** The [search] tool: every exception lands in [catch], which returns
    [JSON.stringify([])]. *)
Definition search_tool (pf : platform) (env : jsval) (query : string)
    : prog tool_result :=
  Call (search_request query) (fun o =>
    match search_body pf env o with
    | Ok results => Ret (Returned (PSearch results))
    | Throw _ => Ret (Returned (PSearch []))
    end).

Definition fetch_request (id : string) : request :=
  {| req_name := "get_article_by_id"; req_args := [("id", parseInt id)] |}.

Definition fetch_body (pf : platform) (env : jsval) (o : http_outcome)
    : exc fetch_doc :=
  raw <- callStrapiAPI pf o ;;
  let article := oprop raw "article" in
  if negb (truthy article) then Throw NotFound
  else transformFetchResult env article.

(** The [fetch] tool: [catch (error) { throw error; }]. *)
Definition fetch_tool (pf : platform) (env : jsval) (id : string)
    : prog tool_result :=
  Call (fetch_request id) (fun o =>
    match fetch_body pf env o with
    | Ok d => Ret (Returned (PFetch d))
    | Throw e => Ret (Raised e)
    end).

(** [JSON.stringify] of a request argument: NaN and the infinities are
    written as [null]. *)
Definition json_arg (v : jsval) : jsval :=
  match v with
  | JNaN | JInf _ => JNull
  | _ => v
  end.

(** ** Query classifier (second agent of part_000, lines 259-296) *)

Module Classifier.

Inductive intent : Type :=
| GetAll
| GetLatest (limit : jsval)
| SearchQ (query : string).

Definition isGetAllQuery (query : string) : bool :=
  let lowerQuery := toLowerCase query in
  negb (truthy (JStr query))
  || String.eqb (trim query) ""
  || String.eqb (trim query) "*"
  || includes lowerQuery "all"
  || includes lowerQuery "everything"
  || includes lowerQuery "list".

Definition recency_words : list string :=
  ["latest"; "recent"; "newest"; "last"; "son"; "yeni"].

Definition isLatestQuery (query : string) : bool :=
  let lowerQuery := toLowerCase query in
  includes lowerQuery "latest"
  || includes lowerQuery "recent"
  || includes lowerQuery "newest"
  || includes lowerQuery "last"
  || includes lowerQuery "son"
  || includes lowerQuery "yeni".

Definition is_digit (c : ascii) : bool :=
  let n := nat_of_ascii c in Nat.leb 48 n && Nat.leb n 57.

Fixpoint digit_run (s : string) : string :=
  match s with
  | String c s' => if is_digit c then String c (digit_run s') else EmptyString
  | EmptyString => EmptyString
  end.

(** [query.match(/(\d+)/)]: capture group 1 of the leftmost match. *)
Fixpoint match_digits (s : string) : option string :=
  match s with
  | EmptyString => None
  | String c s' => if is_digit c then Some (digit_run s) else match_digits s'
  end.

(** [numberMatch ? parseInt(numberMatch[1]) : 10] *)
Definition latest_limit (query : string) : jsval :=
  match match_digits query with
  | Some d => parseInt d
  | None => JNum 10
  end.

(** The if / else-if / else of the search handler. *)
Definition classify (query : string) : intent :=
  if isGetAllQuery query then GetAll
  else if isLatestQuery query then GetLatest (latest_limit query)
  else SearchQ query.

(** The request each intent sends. *)
Definition intent_request (i : intent) : request :=
  match i with
  | GetAll => {| req_name := "get_all_articles"; req_args := [("limit", JNum 100)] |}
  | GetLatest n => {| req_name := "get_all_articles"; req_args := [("limit", n)] |}
  | SearchQ q => {| req_name := "search_articles";
                    req_args := [("query", JStr q); ("limit", JNum 50)] |}
  end.

End Classifier.

(** ** Readings of the spec's words, compared with the code *)

(** "first non-empty field wins": the first truthy value of a list. *)
Fixpoint first_truthy (vs : list jsval) (dflt : jsval) : jsval :=
  match vs with
  | [] => dflt
  | v :: vs' => if truthy v then v else first_truthy vs' dflt
  end.

(** "the value of the longest leading decimal-digit prefix", NaN when
    there is none (the spec's reading of [parseInt]). *)
Definition leading_decimal_value (s : string) : jsval :=
  match leading_digits 10 s with
  | [] => JNaN
  | ds => JNum (digits_value 10 ds)
  end.

(** "an integer substring": a maximal run of decimal digits. *)
Fixpoint has_digit (s : string) : bool :=
  match s with
  | EmptyString => false
  | String c s' => Classifier.is_digit c || has_digit s'
  end.

Fixpoint all_digits (s : string) : bool :=
  match s with
  | EmptyString => true
  | String c s' => Classifier.is_digit c && all_digits s'
  end.

Definition starts_digit (s : string) : bool :=
  match s with
  | EmptyString => false
  | String c _ => Classifier.is_digit c
  end.

(** The decimal value of a digit string. *)
Fixpoint decimal_value_acc (acc : Z) (s : string) : Z :=
  match s with
  | EmptyString => acc
  | String c s' => decimal_value_acc (acc * 10 + (Z.of_nat (nat_of_ascii c) - 48))%Z s'
  end.

Definition decimal_value (s : string) : Z := decimal_value_acc 0 s.

(** A platform for concrete runs: [JSON.parse] as a lookup table over
    a few body texts (standing for the JSON documents named in their
    keys), rejecting every other text. *)
Definition demo_parse (s : string) : option jsval :=
  if String.eqb s "envelope(not-json)" then
    Some (JObj [("content", JArr [JObj [("type", JStr "text"); ("text", JStr "not-json")]])])
  else if String.eqb s "envelope(article 5)" then
    Some (JObj [("content", JArr [JObj [("type", JStr "text"); ("text", JStr "article 5")]])])
  else if String.eqb s "article 5" then
    Some (JObj [("article", JObj [("id", JNum 5); ("title", JStr "A");
                                   ("content", JStr "full text")])])
  else if String.eqb s "error(boom)" then
    Some (JObj [("error", JObj [("message", JStr "boom")])])
  else if String.eqb s "empty" then
    Some (JObj [])
  else None.

Definition demo_platform : platform := {|
  json_parse := demo_parse;
  math_random := fun _ => "0.5"
|}.

(** [n] copies of one character. *)
Fixpoint str_repeat (n : nat) (c : ascii) : string :=
  match n with
  | O => EmptyString
  | S n' => String c (str_repeat n' c)
  end.

(** An article whose only body field is a 600-character summary. *)
Definition long_article : jsval :=
  JObj [("id", JNum 1); ("title", JStr "A"); ("summary", JStr (str_repeat 600 "a"%char))].

(** An article with an empty [content], a [description] and a [summary]. *)
Definition sparse_article : jsval :=
  JObj [("id", JNum 7); ("content", JStr ""); ("description", JStr "D");
        ("summary", JStr "S")].

(** ** Object literals with spread *)

(** Assigning key [k] of an object: an existing key keeps its place and
    takes the new value, a new key is appended. *)
Fixpoint obj_set (fs : list (string * jsval)) (k : string) (v : jsval)
    : list (string * jsval) :=
  match fs with
  | [] => [(k, v)]
  | (k', v') :: fs' =>
      if String.eqb k k' then (k', v) :: fs' else (k', v') :: obj_set fs' k v
  end.

Fixpoint string_entries (i : nat) (s : string) : list (string * jsval) :=
  match s with
  | EmptyString => []
  | String c s' =>
      (Z_to_string (Z.of_nat i), JStr (String c EmptyString)) :: string_entries (S i) s'
  end.

Fixpoint array_entries (i : nat) (l : list jsval) : list (string * jsval) :=
  match l with
  | [] => []
  | x :: l' => (Z_to_string (Z.of_nat i), x) :: array_entries (S i) l'
  end.

(** The own enumerable entries copied by [...v]: an object's fields, the
    indexed characters of a string, the indexed elements of an array, and
    nothing for [undefined], [null], numbers and booleans. *)
Definition spread_entries (v : jsval) : list (string * jsval) :=
  match v with
  | JObj fs => fs
  | JStr s => string_entries 0 s
  | JArr l => array_entries 0 l
  | _ => []
  end.

(** [{ ...base, ...v }] with [base] already built. *)
Definition spread_into (base : list (string * jsval)) (v : jsval) : list (string * jsval) :=
  fold_left (fun acc kv => obj_set acc (fst kv) (snd kv)) (spread_entries v) base.

(** ** Second agent of part_000 (lines 235-458): fetch normaliser *)

Module SecondAgent.

Definition article_url_fallback (article : jsval) : exc jsval :=
  s <- js_ToString (prop article "id") ;;
  Ok (JStr ("https://timely-benefit-e63d540317.strapiapp.com/articles/" ++ s)).

(** The metadata object before [...article.metadata] is spread in. *)
Definition derived_metadata (article : jsval) : list (string * jsval) :=
  [("author", prop article "author");
   ("publishedAt", jsor (prop article "publishedAt") (prop article "created_at"));
   ("category", prop article "category");
   ("tags", prop article "tags");
   ("updatedAt", jsor (prop article "updatedAt") (prop article "updated_at"));
   ("source", JStr "Strapi CMS")].

(** [transformFetchResult(articleResponse)], part_000 lines 364-382. *)
Definition transformFetchResult (article : jsval) : exc fetch_doc :=
  idv <- get article "id" ;;
  ids <- opt_toString idv ;;
  let url_or_link := jsor (prop article "url") (prop article "link") in
  url <- (if truthy url_or_link then Ok url_or_link else article_url_fallback article) ;;
  Ok {| fd_id := jsor ids (JStr "unknown");
        fd_title := jsor (prop article "title")
                      (jsor (prop article "name") (JStr "Untitled Article"));
        fd_text := jsor (prop article "content")
                     (jsor (prop article "description")
                        (jsor (prop article "body") no_content));
        fd_url := url;
        fd_metadata := spread_into (derived_metadata article) (prop article "metadata") |}.

End SecondAgent.

(** ** Third agent of part_001 (lines 376-692) *)

(** Its [callStrapiAPI] (lines 636-691) and [buildArticleUrl] (lines
    616-628) have the same logic as the ones modelled above (logging
    aside), and [transformSearchResults] (lines 526-573) the same text, id,
    title and url; it adds a metadata object. *)
Module ThirdAgent.

(** [category], lines 538-541 and 562: the first tag stands in for a
    missing category, and "Blog" for a still falsy one. *)
Definition search_category (article : jsval) : jsval :=
  let category := prop article "category" in
  let tags := prop article "tags" in
  let category :=
    if negb (truthy category) && truthy tags && is_array tags
       && (match prop tags "length" with JNum n => Z.ltb 0 n | _ => false end)
    then first_elem tags else category in
  jsor category (JStr "Blog").

Definition search_metadata (article : jsval) : list (string * jsval) :=
  [("category", search_category article);
   ("author", prop article "author");
   ("publishedAt", prop article "publishedAt");
   ("tags", prop article "tags");
   ("relevanceScore", prop article "relevanceScore")].

(** One element of [searchResponse.map(...)], lines 534-572; the body's
    [transformSearchArticle] is the first agent's, the one being defined
    is not in scope yet. *)
Definition transformSearchArticle (pf : platform) (env : jsval) (index : nat)
    (article : jsval) : exc (search_doc * list (string * jsval)) :=
  d <- transformSearchArticle pf env index article ;;
  Ok (d, search_metadata article).

Definition transformSearchResults (pf : platform) (env : jsval) (searchResponse : jsval)
    : exc (list (search_doc * list (string * jsval))) :=
  match searchResponse with
  | JArr l => mapM (transformSearchArticle pf env) 0 l
  | _ => Ok []
  end.

(** What the [search] tool answers (lines 391-467): one text item per
    result, a "no articles" message, or a "Search failed" document. *)
Inductive search_reply : Type :=
| SearchItems (items : list (search_doc * list (string * jsval)))
| SearchMessage (message : string) (query : string)
| SearchFailed (query : string).

Definition blank_query (query : string) : bool :=
  negb (truthy (JStr query)) || String.eqb (trim query) "" || String.eqb (trim query) "*".

Definition search_request (query : string) : request :=
  if blank_query query
  then {| req_name := "get_all_articles"; req_args := [("limit", JNum 20)] |}
  else {| req_name := "search_articles";
          req_args := [("query", JStr query); ("limit", JNum 20)] |}.

Definition search_after (pf : platform) (env : jsval) (query : string)
    (o : http_outcome) : exc search_reply :=
  raw <- callStrapiAPI pf o ;;
  let articles := jsor (oprop raw "articles") (JArr []) in
  match prop articles "length" with
  | JNum 0 =>
      Ok (SearchMessage
            (if negb (blank_query query) then "No articles found for your search query"
             else "No articles available") query)
  | _ =>
      if is_array articles
      then results <- transformSearchResults pf env articles ;; Ok (SearchItems results)
      else Ok (SearchItems [])
  end.

Definition search_tool (pf : platform) (env : jsval) (query : string) : prog search_reply :=
  Call (search_request query) (fun o =>
    match search_after pf env query o with
    | Ok r => Ret r
    | Throw _ => Ret (SearchFailed query)
    end).

(** [transformFetchResult(article)], lines 576-601. *)
Definition transformFetchResult (env : jsval) (article : jsval) : exc fetch_doc :=
  idv <- get article "id" ;;
  ids <- opt_toString idv ;;
  let id := jsor ids (JStr "unknown") in
  let title := jsor (prop article "title") (JStr "Untitled Article") in
  url <- buildArticleUrl env article ;;
  Ok {| fd_id := id; fd_title := title; fd_text := fetch_text article; fd_url := url;
        fd_metadata := [("author", prop article "author");
                        ("publishedAt", prop article "publishedAt");
                        ("updatedAt", prop article "updatedAt");
                        ("category", prop article "category");
                        ("tags", prop article "tags");
                        ("source", JStr "Keepnet Labs Blog");
                        ("readingTime", prop article "readingTime");
                        ("wordCount", prop article "wordCount");
                        ("seo", prop article "seo")] |}.

(** What the [fetch] tool answers (lines 470-522): the document, or an
    error document carrying the requested id. *)
Inductive fetch_reply : Type :=
| FetchDoc (d : fetch_doc)
| FetchErrorDoc (error : string) (id : string).

Definition fetch_tool (pf : platform) (env : jsval) (id : string) : prog fetch_reply :=
  Call (fetch_request id) (fun o =>
    match callStrapiAPI pf o with
    | Throw _ => Ret (FetchErrorDoc "Fetch failed" id)
    | Ok raw =>
        let article := oprop raw "article" in
        if negb (truthy article) then Ret (FetchErrorDoc "Document not found" id)
        else
          match transformFetchResult env article with
          | Ok d => Ret (FetchDoc d)
          | Throw _ => Ret (FetchErrorDoc "Fetch failed" id)
          end
    end).

End ThirdAgent.

(** ** The older client ([callStrapiAPI] of src/src/index.ts lines
    183-218, identical in part_000 lines 406-441 and part_001 lines
    322-355) *)

(** [v[0]] on a value that is not [null]/[undefined]. *)
Definition index0 (v : jsval) : jsval :=
  match v with
  | JArr (x :: _) => x
  | JStr (String c _) => JStr (String c EmptyString)
  | JObj fs => assoc "0" fs
  | _ => JUndef
  end.

(** The status error's message does not include the body, which is not
    read: it is recorded with an empty body. [new Error(undefined)] has
    the empty message. *)
Definition callStrapiAPI_plain (pf : platform) (o : http_outcome) : exc jsval :=
  match o with
  | NetFail => Throw TransportError
  | HttpResp false status _ => Throw (HttpError status "")
  | HttpResp true _ body =>
      match json_parse pf body with
      | None => Throw BodySyntaxError
      | Some data =>
          err <- get data "error" ;;
          if truthy err then
            m <- get err "message" ;;
            msg <- (match m with JUndef => Ok "" | _ => js_ToString m end) ;;
            Throw (ApiError msg)
          else
            let content := prop data "content" in
            if truthy content && truthy (index0 content)
               && truthy (prop (index0 content) "text") then
              let text := prop (index0 content) "text" in
              match js_ToString text with
              | Throw _ => Ok text
              | Ok t =>
                  match json_parse pf t with
                  | Some parsed => Ok parsed
                  | None => Ok text
                  end
              end
            else Ok data
      end
  end.

(** ** src/src/index.ts: the [CallToolRequestSchema] handler *)

Module IndexTs.

Definition article_url_fallback (article : jsval) : exc jsval :=
  s <- js_ToString (prop article "id") ;;
  Ok (JStr ("https://example.com/article/" ++ s)).

(** One element of [searchResponse.map(...)], lines 137-142. *)
Definition transformSearchArticle (pf : platform) (index : nat) (article : jsval)
    : exc search_doc :=
  idv <- get article "id" ;;
  ids <- opt_toString idv ;;
  let id := jsor ids (JStr (math_random pf index)) in
  let title := jsor (prop article "title")
                 (jsor (prop article "name") (JStr "Untitled Article")) in
  text <- createSnippet (jsor (prop article "content")
                           (jsor (prop article "description")
                              (jsor (prop article "excerpt") no_content))) 200 ;;
  let url_or_link := jsor (prop article "url") (prop article "link") in
  url <- (if truthy url_or_link then Ok url_or_link else article_url_fallback article) ;;
  Ok {| sd_id := id; sd_title := title; sd_text := text; sd_url := url |}.

(** [transformSearchResults(searchResponse)], lines 132-143. *)
Definition transformSearchResults (pf : platform) (searchResponse : jsval)
    : exc (list search_doc) :=
  match searchResponse with
  | JArr l => mapM (transformSearchArticle pf) 0 l
  | _ => Ok []
  end.

(** [transformFetchResult(articleResponse)], lines 146-163. *)
Definition transformFetchResult (article : jsval) : exc fetch_doc :=
  idv <- get article "id" ;;
  ids <- opt_toString idv ;;
  let url_or_link := jsor (prop article "url") (prop article "link") in
  url <- (if truthy url_or_link then Ok url_or_link else article_url_fallback article) ;;
  Ok {| fd_id := jsor ids (JStr "unknown");
        fd_title := jsor (prop article "title")
                      (jsor (prop article "name") (JStr "Untitled Article"));
        fd_text := jsor (prop article "content")
                     (jsor (prop article "description")
                        (jsor (prop article "body") no_content));
        fd_url := url;
        fd_metadata :=
          spread_into
            [("author", prop article "author");
             ("publishedAt", jsor (prop article "publishedAt") (prop article "created_at"));
             ("category", prop article "category");
             ("tags", prop article "tags");
             ("updatedAt", jsor (prop article "updatedAt") (prop article "updated_at"))]
            (prop article "metadata") |}.

(** Why a call ends with [isError: true]. *)
Inductive failure : Type :=
| Failed (e : error)
| UnknownTool (name : string).

Inductive call_result : Type :=
| Content (p : payload)
| IsError (f : failure).

(** The handler, lines 72-128: [args.query] / [args.id] are read before
    the request is sent; every exception becomes an [isError] result. *)
Definition call_tool (pf : platform) (name : string) (args : jsval) : prog call_result :=
  if String.eqb name "search" then
    match get args "query" with
    | Throw e => Ret (IsError (Failed e))
    | Ok q =>
        Call {| req_name := "search_articles"; req_args := [("query", q); ("limit", JNum 20)] |}
          (fun o =>
             match (r <- callStrapiAPI_plain pf o ;; transformSearchResults pf r) with
             | Ok docs => Ret (Content (PSearch docs))
             | Throw e => Ret (IsError (Failed e))
             end)
    end
  else if String.eqb name "fetch" then
    match (idv <- get args "id" ;; js_ToString idv) with
    | Throw e => Ret (IsError (Failed e))
    | Ok ids =>
        Call {| req_name := "get_article_by_id";
                req_args := [("id", parseInt ids)] |}
          (fun o =>
             match (r <- callStrapiAPI_plain pf o ;; transformFetchResult r) with
             | Ok d => Ret (Content (PFetch d))
             | Throw e => Ret (IsError (Failed e))
             end)
    end
  else Ret (IsError (UnknownTool name)).

End IndexTs.

(** * Properties *)

(** Walks through the successful steps of a computation [H : m = Ok _]
    of the exception monad, discarding the branches that throw. *)
Ltac exc_steps H :=
  unfold bind in H;
  repeat match type of H with
  | context [match ?m with Ok _ => _ | Throw _ => _ end] =>
      destruct m; [|discriminate H]
  end.

(** ** String lemmas *)

Lemma length_app (a b : string) :
  String.length (a ++ b) = String.length a + String.length b.
Proof. induction a as [|c a IH]; simpl; [reflexivity | now rewrite IH]. Qed.

Lemma take_length (n : nat) (s : string) :
  String.length (take n s) = Nat.min n (String.length s).
Proof.
  revert s; induction n as [|n IH]; intros [|c s]; simpl; try reflexivity.
  now rewrite IH.
Qed.

Lemma take_app_exact (p x : string) : take (String.length p) (p ++ x) = p.
Proof. induction p as [|c p IH]; simpl; [reflexivity | now rewrite IH]. Qed.

Lemma take_take (m n : nat) (s : string) : m <= n -> take m (take n s) = take m s.
Proof.
  revert n s; induction m as [|m IH]; intros [|n] [|c s] H; simpl; try reflexivity; try lia.
  rewrite IH; [reflexivity | lia].
Qed.

Lemma lastIndexOf_from_range (c : ascii) (s : string) : forall i, (0 <= i)%Z ->
  lastIndexOf_from c i s = (-1)%Z \/
  (i <= lastIndexOf_from c i s < i + Z.of_nat (String.length s))%Z.
Proof.
  induction s as [|d s IH]; intros i Hi; cbn [lastIndexOf_from String.length];
    [now left|].
  rewrite Nat2Z.inj_succ.
  destruct (IH (i + 1)%Z) as [E|R]; [lia| |].
  - rewrite E, Z.eqb_refl. destruct (Ascii.eqb c d); [right; lia | now left].
  - destruct (Z.eqb_spec (lastIndexOf_from c (i + 1) s) (-1)); [lia|]. right; lia.
Qed.

Lemma lastIndexOf_range (c : ascii) (s : string) :
  lastIndexOf c s = (-1)%Z \/
  (0 <= lastIndexOf c s < Z.of_nat (String.length s))%Z.
Proof. unfold lastIndexOf. destruct (lastIndexOf_from_range c s 0 (Z.le_refl 0)); lia. Qed.

(** The snippet is the text itself when short enough, otherwise a prefix of
    at most [maxLength] characters followed by ["..."]. *)
Lemma snippet_str_shape (s : string) (L : nat) :
  (String.length s <= L /\ snippet_str s L = s) \/
  (L < String.length s /\
   exists k, k <= L /\ snippet_str s L = take k s ++ "...").
Proof.
  unfold snippet_str.
  destruct (Nat.leb_spec (String.length s) L) as [H|H]; [left; auto|right].
  split; [exact H|].
  destruct (lastIndexOf_range " "%char (take L s)) as [E|R].
  - rewrite E. destruct (Z.ltb_spec (4 * Z.of_nat L) (5 * -1)); [lia|].
    exists L; split; [lia | reflexivity].
  - rewrite take_length in R.
    destruct (Z.ltb_spec (4 * Z.of_nat L) (5 * lastIndexOf " "%char (take L s))).
    + exists (Z.to_nat (lastIndexOf " "%char (take L s))). split; [lia|].
      rewrite take_take; [reflexivity | lia].
    + exists L; split; [lia | reflexivity].
Qed.

Lemma take_le_length (k : nat) (s : string) : String.length (take k s) <= k.
Proof. rewrite take_length; lia. Qed.

(** ** Normaliser lemmas *)

Lemma jsor_truthy (a b : jsval) : truthy a = true -> jsor a b = a.
Proof. unfold jsor; now intros ->. Qed.

Lemma jsor_falsy (a b : jsval) : truthy a = false -> jsor a b = b.
Proof. unfold jsor; now intros ->. Qed.

Lemma transformSearchArticle_text (pf : platform) (env : jsval) (i : nat)
    (a : jsval) (d : search_doc) :
  transformSearchArticle pf env i a = Ok d ->
  createSnippet (search_text a) snippet_max = Ok (sd_text d).
Proof.
  unfold transformSearchArticle, bind.
  destruct (get a "summary"); [|discriminate].
  destruct (opt_toString (prop a "id")); [|discriminate].
  destruct (createSnippet (search_text a) snippet_max); [|discriminate].
  destruct (buildArticleUrl env a); [|discriminate].
  now intros [= <-].
Qed.

Lemma transformSearchArticle_url (pf : platform) (env : jsval) (i : nat)
    (a : jsval) (d : search_doc) :
  transformSearchArticle pf env i a = Ok d -> buildArticleUrl env a = Ok (sd_url d).
Proof.
  unfold transformSearchArticle, bind.
  destruct (get a "summary"); [|discriminate].
  destruct (opt_toString (prop a "id")); [|discriminate].
  destruct (createSnippet (search_text a) snippet_max); [|discriminate].
  destruct (buildArticleUrl env a); [|discriminate].
  now intros [= <-].
Qed.

Lemma transformFetchResult_fields (env : jsval) (a : jsval) (d : fetch_doc) :
  transformFetchResult env a = Ok d ->
  fd_text d = fetch_text a /\ buildArticleUrl env a = Ok (fd_url d).
Proof.
  unfold transformFetchResult, bind.
  destruct (get a "id") as [j|]; [|discriminate].
  destruct (opt_toString j); [|discriminate].
  destruct (buildArticleUrl env a); [|discriminate].
  now intros [= <-].
Qed.

(** ** C1: body text of the search variant *)

(** C1 (counterexample): with [summary] and [excerpt] empty, a non-empty
    [fullContent] is chosen over a non-empty [description]; and an article
    whose only body field is [content] gets "No content available". *)
Lemma C1_search_text_counterexample :
  search_text (JObj [("summary", JStr ""); ("fullContent", JStr "F");
                     ("description", JStr "D")]) = JStr "F"
  /\ search_text (JObj [("content", JStr "C")]) = no_content.
Proof. split; reflexivity. Qed.

(** C1 (amended): the search-variant body text is the first truthy field in
    the order summary, excerpt, fullContent, description, and
    "No content available" when none is; [content] is never consulted. *)
Theorem C1_search_text_order (article : jsval) :
  search_text article =
  first_truthy [prop article "summary"; prop article "excerpt";
                prop article "fullContent"; prop article "description"]
               no_content.
Proof.
  unfold search_text, jsor; cbv zeta; cbn [first_truthy].
  destruct (truthy (prop article "summary"%string)),
           (truthy (prop article "excerpt"%string)),
           (truthy (prop article "fullContent"%string)),
           (truthy (prop article "description"%string)); reflexivity.
Qed.

(** ** C2: body text of the fetch variant *)

(** C2: the fetch document's text is the first truthy field in the order
    content, fullContent, description, summary, else "No content
    available", and is returned whole (no snippet is applied). *)
Theorem C2_fetch_text_full (env article : jsval) (d : fetch_doc) :
  transformFetchResult env article = Ok d ->
  fd_text d =
  first_truthy [prop article "content"; prop article "fullContent";
                prop article "description"; prop article "summary"]
               no_content.
Proof.
  intros H. destruct (transformFetchResult_fields env article d H) as [-> _].
  unfold fetch_text, jsor; cbn [first_truthy].
  destruct (truthy (prop article "content"%string)); [reflexivity|].
  destruct (truthy (prop article "fullContent"%string)); [reflexivity|].
  destruct (truthy (prop article "description"%string)); [reflexivity|].
  reflexivity.
Qed.

(** ** C3: snippet bound of the search variant *)

(** C3 (counterexample): a 600-character summary yields a search text of
    515 characters, above the bound 512. *)
Lemma C3_snippet_bound_counterexample :
  match transformSearchArticle demo_platform JUndef 0 long_article with
  | Ok d => sd_text d = JStr (str_repeat 512 "a"%char ++ "...")
            /\ String.length (str_repeat 512 "a"%char ++ "...") = 515
  | Throw _ => False
  end.
Proof. vm_compute. split; reflexivity. Qed.

(** C3 (amended): for a string body [s], the search document's text is at
    most [snippet_max + 3] = 515 characters long; when [s] is longer than
    512 it is a prefix of [s] of at most 512 characters followed by
    ["..."]. *)
Theorem C3_search_text_bounded (pf : platform) (env : jsval) (i : nat)
    (article : jsval) (d : search_doc) (s : string) :
  transformSearchArticle pf env i article = Ok d ->
  search_text article = JStr s ->
  exists t, sd_text d = JStr t /\ String.length t <= snippet_max + 3 /\
    (snippet_max < String.length s ->
     exists k, k <= snippet_max /\ t = take k s ++ "...").
Proof.
  intros H Hs. pose proof (transformSearchArticle_text pf env i article d H) as Ht.
  rewrite Hs in Ht. unfold createSnippet in Ht.
  destruct (truthy (JStr s)) eqn:Tr; cbn [negb] in Ht.
  - injection Ht as <-. exists (snippet_str s snippet_max). split; [reflexivity|].
    destruct (snippet_str_shape s snippet_max) as [[Hl ->]|[Hl [k [Hk ->]]]].
    + split; [lia|]. intros; lia.
    + split.
      * rewrite length_app, take_length. cbn [String.length]. lia.
      * intros _. now exists k.
  - injection Ht as <-. exists s. split; [reflexivity|].
    cbn [truthy] in Tr. destruct (String.eqb_spec s ""); [subst|discriminate].
    cbn. split; [lia|]. intros; lia.
Qed.

(** ** C4: snippet idempotence *)

(** C4 (counterexample): with bound 10, the text "aaaaaaaaa bbbbbb" is cut
    at the space at index 9 into "aaaaaaaaa...", which is longer than 10
    and is cut again into "aaaaaaaaa....". *)
Lemma C4_snippet_idempotence_counterexample :
  snippet_str "aaaaaaaaa bbbbbb" 10 = "aaaaaaaaa..." /\
  snippet_str (snippet_str "aaaaaaaaa bbbbbb" 10) 10 = "aaaaaaaaa....".
Proof. split; reflexivity. Qed.

(** C4 (amended): [snippet(snippet(s, L), L) = snippet(s, L)] unless the
    first application cut [s] at a space at index [L - 2] or [L - 1]
    (that is: [s] is longer than [L], the last space [ls] of its first [L]
    characters lies past 80% of [L], and [ls + 3 > L]). *)
Theorem C4_snippet_idempotent_except_late_space (s : string) (L : nat) :
  let ls := lastIndexOf " "%char (take L s) in
  String.length s <= L \/ (5 * ls <= 4 * Z.of_nat L)%Z \/ (ls + 3 <= Z.of_nat L)%Z ->
  snippet_str (snippet_str s L) L = snippet_str s L.
Proof.
  cbv zeta. intros Hc.
  unfold snippet_str at 2 3.
  destruct (Nat.leb_spec (String.length s) L) as [Hle|Hgt].
  - unfold snippet_str. now rewrite (proj2 (Nat.leb_le _ _) Hle).
  - assert (Hp : String.length (take L s) = L) by (rewrite take_length; lia).
    assert (Ht : take L (take L s ++ "...") = take L s)
      by (rewrite <- Hp at 1; apply take_app_exact).
    destruct (lastIndexOf_range " "%char (take L s)) as [E|R].
    + rewrite E. destruct (Z.ltb_spec (4 * Z.of_nat L) (5 * -1)); [lia|].
      unfold snippet_str.
      destruct (Nat.leb_spec (String.length (take L s ++ "...")) L) as [Hl|_].
      { rewrite length_app, Hp in Hl; cbn [String.length] in Hl; lia. }
      rewrite Ht, E.
      destruct (Z.ltb_spec (4 * Z.of_nat L) (5 * -1)); [lia|reflexivity].
    + rewrite Hp in R.
      destruct (Z.ltb_spec (4 * Z.of_nat L) (5 * lastIndexOf " "%char (take L s)))
        as [Hlt|Hge].
      * assert (H3 : (lastIndexOf " "%char (take L s) + 3 <= Z.of_nat L)%Z) by lia.
        unfold snippet_str at 1.
        rewrite (proj2 (Nat.leb_le _ _)); [reflexivity|].
        rewrite length_app, take_length, Hp. cbn [String.length]. lia.
      * unfold snippet_str.
        destruct (Nat.leb_spec (String.length (take L s ++ "...")) L) as [Hl|_].
        { rewrite length_app, Hp in Hl; cbn [String.length] in Hl; lia. }
        rewrite Ht.
        destruct (Z.ltb_spec (4 * Z.of_nat L) (5 * lastIndexOf " "%char (take L s)));
          [lia|reflexivity].
Qed.

(** ** C5: URL canonicalisation *)

(** C5 (counterexample): without a [url], an [id] with an own [toString]
    key makes the template literal throw, and so does a truthy [url] that
    is not a string, which has no [startsWith]. *)
Lemma C5_article_url_counterexample :
  buildArticleUrl JUndef (JObj [("id", JObj [("toString", JNum 1)])]) = Throw TypeError
  /\ buildArticleUrl JUndef (JObj [("url", JNum 5)]) = Throw TypeError.
Proof. split; reflexivity. Qed.

(** C5 (amended): for an article record, a [url] that is a non-empty
    string is kept when it starts with "http" and otherwise appended to
    [String(baseUrl)]; any other truthy [url] throws a [TypeError];
    without a truthy [url] the URL is [{baseUrl}/blog/{articleId || id}],
    both parts converted by [String()], which throws a [TypeError] on an
    object with an own [toString] key; a non-empty configured [STRAPI_URL]
    string is the base, the default URL otherwise; and the search and
    fetch documents both carry exactly this URL. *)
Theorem C5_article_url_rule (env : jsval) (fields : list (string * jsval)) :
  let article := JObj fields in
  (forall b, oprop env "STRAPI_URL" = JStr b -> b <> "" ->
     js_ToString (base_url env) = Ok b)
  /\ (truthy (oprop env "STRAPI_URL") = false ->
     js_ToString (base_url env) = Ok default_strapi_url)
  /\ (forall u, prop article "url" = JStr u -> u <> "" ->
     buildArticleUrl env article =
     if startsWith u "http" then Ok (JStr u)
     else (b <- js_ToString (base_url env) ;; Ok (JStr (b ++ u))))
  /\ (truthy (prop article "url") = true ->
     (forall u, prop article "url" <> JStr u) ->
     buildArticleUrl env article = Throw TypeError)
  /\ (truthy (prop article "url") = false ->
     buildArticleUrl env article =
     (b <- js_ToString (base_url env) ;;
      i <- js_ToString (jsor (prop article "articleId") (prop article "id")) ;;
      Ok (JStr (b ++ "/blog/" ++ i))))
  /\ (forall pf i d, transformSearchArticle pf env i article = Ok d ->
        buildArticleUrl env article = Ok (sd_url d))
  /\ (forall d, transformFetchResult env article = Ok d ->
        buildArticleUrl env article = Ok (fd_url d)).
Proof.
  cbv zeta. split; [|split; [|split; [|split; [|split; [|split]]]]].
  - intros b Hb Hne. unfold base_url, jsor. rewrite Hb. cbn [truthy].
    destruct (String.eqb_spec b ""); [contradiction | reflexivity].
  - intros Hf. unfold base_url, jsor. now rewrite Hf.
  - intros u Hu Hne. unfold buildArticleUrl, bind, get. rewrite Hu.
    cbn [truthy]. destruct (String.eqb_spec u ""); [contradiction|]. cbn [negb].
    destruct (startsWith u "http"); reflexivity.
  - intros Ht Hns. unfold buildArticleUrl, bind, get. rewrite Ht.
    destruct (prop (JObj fields) "url"); try reflexivity.
    now destruct (Hns s).
  - intros Hf. unfold buildArticleUrl, bind, get. now rewrite Hf.
  - intros pf i d. apply transformSearchArticle_url.
  - intros d H. exact (proj2 (transformFetchResult_fields env _ d H)).
Qed.

(** ** C6 and C7: query classifier *)

Lemma prefix_lower (w s : string) :
  String.prefix w s = true ->
  String.prefix (toLowerCase w) (toLowerCase s) = true.
Proof.
  revert s; induction w as [|a w IH]; intros [|c s] H; cbn in *; try easy.
  destruct (ascii_dec a c) as [<-|]; [|discriminate].
  destruct (ascii_dec (lower_char a) (lower_char a)) as [_|n]; [now apply IH|].
  now contradiction n.
Qed.

Lemma includes_lower (s w : string) :
  includes s w = true -> includes (toLowerCase s) (toLowerCase w) = true.
Proof.
  induction s as [|c s IH]; intros H.
  - destruct w; cbn in *; [reflexivity|discriminate].
  - cbn [includes toLowerCase] in *. apply orb_true_iff in H as [H|H].
    + change (String (lower_char c) (toLowerCase s)) with (toLowerCase (String c s)).
      now rewrite prefix_lower.
    + rewrite IH by exact H. apply orb_true_r.
Qed.

(** C6: a query that is empty or white space, whose trimmed form is "*", or
    that contains "all", "everything" or "list" in any casing, is
    classified GetAll, whatever recency words or numbers it also holds. *)
Theorem C6_getall_precedence (q : string) :
  (trim q = "" \/ trim q = "*" \/
   exists w, includes q w = true /\ In (toLowerCase w) ["all"; "everything"; "list"]) ->
  Classifier.classify q = Classifier.GetAll.
Proof.
  intros H. unfold Classifier.classify.
  enough (Hg : Classifier.isGetAllQuery q = true) by now rewrite Hg.
  unfold Classifier.isGetAllQuery. cbv zeta.
  destruct H as [H|[H|[w [Hi Hw]]]].
  - rewrite H. now rewrite orb_true_r.
  - rewrite H. cbn [String.eqb]. now rewrite !orb_true_r, orb_true_l.
  - pose proof (includes_lower q w Hi) as Hl.
    destruct Hw as [Hw|[Hw|[Hw|[]]]]; rewrite <- Hw in Hl; rewrite Hl;
      rewrite ?orb_true_r; reflexivity.
Qed.

Ltac bool_bounds :=
  repeat (match goal with
  | |- context [Nat.leb ?a ?b] => destruct (Nat.leb_spec a b)
  | |- context [Nat.eqb ?a ?b] => destruct (Nat.eqb_spec a b)
  | |- context [Z.leb ?a ?b] => destruct (Z.leb_spec a b)
  | |- context [Z.ltb ?a ?b] => destruct (Z.ltb_spec a b)
  end; cbn [andb orb negb]); try reflexivity; try lia.

Lemma is_digit_bounds (c : ascii) :
  Classifier.is_digit c = true -> 48 <= nat_of_ascii c <= 57.
Proof.
  unfold Classifier.is_digit. intros H. apply andb_true_iff in H as [H1 H2].
  apply Nat.leb_le in H1, H2. lia.
Qed.

Lemma is_digit_not_space (c : ascii) :
  Classifier.is_digit c = true -> is_js_space c = false.
Proof.
  intros H%is_digit_bounds. unfold is_js_space. cbv zeta. bool_bounds.
Qed.

Lemma eqb_digit_nondigit (c x : ascii) :
  Classifier.is_digit c = true -> Classifier.is_digit x = false -> Ascii.eqb c x = false.
Proof. intros Hc Hx. destruct (Ascii.eqb_spec c x); [subst; congruence | reflexivity]. Qed.

Lemma digit_val_dec (c : ascii) :
  Classifier.is_digit c = true ->
  digit_val 10 c = Some (Z.of_nat (nat_of_ascii c) - 48)%Z.
Proof.
  intros H%is_digit_bounds. unfold digit_val. cbv zeta. bool_bounds.
Qed.

Lemma leading_digits_fold (s : string) : forall acc,
  all_digits s = true ->
  fold_left (fun a d => a * 10 + d)%Z (leading_digits 10 s) acc = decimal_value_acc acc s.
Proof.
  induction s as [|c s IH]; intros acc H; [reflexivity|].
  cbn [all_digits] in H. apply andb_true_iff in H as [Hc Hs].
  cbn [leading_digits decimal_value_acc]. rewrite digit_val_dec by exact Hc.
  cbn [fold_left]. now apply IH.
Qed.

Lemma leading_decimal_all (c : ascii) (r : string) :
  all_digits (String c r) = true ->
  leading_decimal_value (String c r) = JNum (decimal_value (String c r)).
Proof.
  intros H. unfold leading_decimal_value, decimal_value, digits_value.
  pose proof H as H'. cbn [all_digits] in H'. apply andb_true_iff in H' as [Hc _].
  rewrite <- (leading_digits_fold _ 0%Z H).
  cbn [leading_digits]. rewrite digit_val_dec by exact Hc. reflexivity.
Qed.

(** [parseInt] on a text that starts with a decimal digit, other than a
    [0x]/[0X] prefix, reads its leading decimal digits. *)
Lemma parseInt_decimal (c : ascii) (r : string) :
  Classifier.is_digit c = true ->
  ~ (c = "0"%char /\ exists x r', r = String x r' /\ (x = "x"%char \/ x = "X"%char)) ->
  parseInt (String c r) = round_number (leading_decimal_value (String c r)).
Proof.
  intros Hc Hx. unfold parseInt. cbn [trim_start]. rewrite is_digit_not_space by exact Hc.
  rewrite (eqb_digit_nondigit c "-"%char Hc eq_refl), (eqb_digit_nondigit c "+"%char Hc eq_refl).
  cbn beta iota.
  assert (Hr : match String c r with
               | String z (String x r0) =>
                   if Ascii.eqb z "0"%char && (Ascii.eqb x "x"%char || Ascii.eqb x "X"%char)
                   then (16%Z, r0) else (10%Z, String c r)
               | _ => (10%Z, String c r)
               end = (10%Z, String c r)).
  { destruct r as [|x r']; [reflexivity|].
    destruct (Ascii.eqb_spec c "0"%char), (Ascii.eqb_spec x "x"%char),
             (Ascii.eqb_spec x "X"%char); cbn [andb orb]; try reflexivity;
      (exfalso; apply Hx; split; [assumption | exists x, r'; auto]). }
  rewrite Hr. unfold leading_decimal_value.
  cbn [leading_digits]. rewrite digit_val_dec by exact Hc.
  now rewrite Z.mul_1_l.
Qed.

Lemma leading_digits_nonneg (radix : Z) (s : string) :
  (0 <= radix)%Z ->
  (0 <= fold_left (fun acc d => acc * radix + d)%Z (leading_digits radix s) 0)%Z.
Proof.
  intros Hr. assert (G : forall acc, (0 <= acc)%Z ->
    (0 <= fold_left (fun acc d => acc * radix + d)%Z (leading_digits radix s) acc)%Z).
  { induction s as [|c s IH]; intros acc Ha; [exact Ha|].
    cbn [leading_digits]. unfold digit_val.
    destruct (Z.leb 48 _ && Z.leb _ 57) eqn:E1;
      [|destruct (Z.leb 97 _ && Z.leb _ 122) eqn:E2;
        [|destruct (Z.leb 65 _ && Z.leb _ 90) eqn:E3]];
      try (destruct (Z.ltb _ radix)); cbn [fold_left]; try exact Ha;
      apply IH; repeat rewrite andb_true_iff, !Z.leb_le in *; nia. }
  now apply G.
Qed.

Lemma round_pos_small (n : Z) : (0 <= n < 2 ^ 53)%Z -> round_pos n = n.
Proof.
  intros Hn. unfold round_pos. destruct (Z.eq_dec n 0) as [->|Hnz]; [reflexivity|].
  assert (Hl : (Z.log2 n < 53)%Z) by (apply Z.log2_lt_pow2; lia).
  now rewrite (proj2 (Z.ltb_lt _ _) Hl).
Qed.

(** Integers below 2^53 are doubles. *)
Lemma round_pos_nonneg (n : Z) : (0 <= n)%Z -> (0 <= round_pos n)%Z.
Proof.
  intros Hn. unfold round_pos. destruct (Z.ltb _ 53); [exact Hn|].
  cbv zeta. apply Z.shiftl_nonneg.
  assert (0 <= Z.shiftr n (Z.log2 n - 52))%Z by (apply Z.shiftr_nonneg; exact Hn).
  destruct (_ || _); lia.
Qed.

(** A non-negative integer is a non-negative double or [Infinity]. *)
Lemma number_of_Z_nonneg (z : Z) : (0 <= z)%Z ->
  (exists n, number_of_Z z = JNum n /\ (0 <= n)%Z) \/ number_of_Z z = JInf false.
Proof.
  intros Hz. unfold number_of_Z. rewrite (proj2 (Z.ltb_ge z 0)) by lia.
  destruct (Z.leb _ _); [right; reflexivity|]. left. eexists; split; [reflexivity|].
  apply round_pos_nonneg. lia.
Qed.

Lemma number_of_Z_small (z : Z) : (0 <= z < 2 ^ 53)%Z -> number_of_Z z = JNum z.
Proof.
  intros Hz. unfold number_of_Z. rewrite Z.abs_eq by lia.
  rewrite round_pos_small by lia.
  assert (Hp : (2 ^ 53 < 2 ^ 1024)%Z) by (apply Z.pow_lt_mono_r; lia).
  rewrite (proj2 (Z.leb_gt _ _)) by lia.
  rewrite (proj2 (Z.ltb_ge _ _)) by lia. reflexivity.
Qed.

Lemma decimal_value_acc_nonneg (s : string) : forall acc,
  (0 <= acc)%Z -> all_digits s = true -> (0 <= decimal_value_acc acc s)%Z.
Proof.
  induction s as [|c s IH]; intros acc Ha H; [exact Ha|].
  cbn [all_digits] in H. apply andb_true_iff in H as [Hc Hs].
  apply is_digit_bounds in Hc. cbn [decimal_value_acc]. apply IH; [lia | exact Hs].
Qed.

Lemma digit_run_split (s : string) :
  exists rest, s = Classifier.digit_run s ++ rest /\
    all_digits (Classifier.digit_run s) = true /\ starts_digit rest = false.
Proof.
  induction s as [|c s [rest [E [A S]]]].
  - now exists "".
  - cbn [Classifier.digit_run]. destruct (Classifier.is_digit c) eqn:Hc.
    + exists rest. cbn [String.append all_digits]. rewrite <- E, Hc, A. auto.
    + exists (String c s). cbn. auto.
Qed.

Lemma match_digits_spec (q : string) :
  (Classifier.match_digits q = None /\ has_digit q = false) \/
  (exists pre d rest, q = pre ++ d ++ rest /\ has_digit pre = false /\ d <> "" /\
     all_digits d = true /\ starts_digit rest = false /\
     Classifier.match_digits q = Some d).
Proof.
  induction q as [|c q IH]; [now left|].
  cbn [Classifier.match_digits has_digit]. destruct (Classifier.is_digit c) eqn:Hc.
  - right. destruct (digit_run_split (String c q)) as [rest [E [A S]]].
    exists "", (Classifier.digit_run (String c q)), rest.
    cbn [Classifier.digit_run] in *. rewrite Hc in *. cbn [String.append].
    repeat split; auto; discriminate.
  - destruct IH as [[N H]|[pre [d [rest [E [H [Ne [A [S M]]]]]]]]].
    + left. auto.
    + right. exists (String c pre), d, rest. cbn [String.append has_digit].
      rewrite <- E, Hc, H. repeat split; auto.
Qed.

(** C7 (counterexample): a run of 20 nines is sent as the double
    [10^20], not its value; a run of 400 nines is [Infinity]. *)
Lemma C7_latest_limit_counterexample :
  Classifier.classify "newest 99999999999999999999"
  = Classifier.GetLatest (JNum 100000000000000000000)
  /\ decimal_value "99999999999999999999" = 99999999999999999999%Z
  /\ Classifier.classify ("newest " ++ str_repeat 400 "9"%char)
     = Classifier.GetLatest (JInf false).
Proof. split; [|split]; vm_compute; reflexivity. Qed.

(** C7 (amended): a query not classified GetAll that contains a recency
    word in any casing is classified GetLatest; its limit is the value of
    the first maximal run of decimal digits of the query rounded to the
    nearest double (exact below 2^53, [Infinity] when it rounds to
    2^1024) when there is one, and 10 when the query has no digit. *)
Theorem C7_latest_limit (q : string) :
  Classifier.isGetAllQuery q = false ->
  (exists w, includes q w = true /\ In (toLowerCase w) Classifier.recency_words) ->
  (exists pre d rest, q = pre ++ d ++ rest /\ has_digit pre = false /\ d <> "" /\
     all_digits d = true /\ starts_digit rest = false /\
     Classifier.classify q = Classifier.GetLatest (number_of_Z (decimal_value d)) /\
     ((decimal_value d < 2 ^ 53)%Z -> number_of_Z (decimal_value d) = JNum (decimal_value d)))
  \/ (has_digit q = false /\ Classifier.classify q = Classifier.GetLatest (JNum 10)).
Proof.
  intros Hg [w [Hi Hw]].
  assert (Hl : Classifier.isLatestQuery q = true).
  { pose proof (includes_lower q w Hi) as H. unfold Classifier.isLatestQuery. cbv zeta.
    destruct Hw as [Hw|[Hw|[Hw|[Hw|[Hw|[Hw|[]]]]]]]; rewrite <- Hw in H; rewrite H;
      rewrite ?orb_true_r; reflexivity. }
  unfold Classifier.classify. rewrite Hg, Hl. unfold Classifier.latest_limit.
  destruct (match_digits_spec q) as [[N H]|[pre [d [rest [E [H [Ne [A [S M]]]]]]]]].
  - right. rewrite N. auto.
  - left. exists pre, d, rest. rewrite M. repeat split; auto.
    + f_equal.
      destruct d as [|c r]; [contradiction|].
      pose proof A as A'. cbn [all_digits] in A'. apply andb_true_iff in A' as [Hc Ar].
      rewrite parseInt_decimal by
        (exact Hc || (intros [_ [x [r' [-> [-> | ->]]]]]; discriminate Ar)).
      now rewrite leading_decimal_all.
    + intros Hlt. apply number_of_Z_small. split; [|exact Hlt].
      apply decimal_value_acc_nonneg; [lia | exact A].
Qed.

(** Witnesses. *)

Lemma C5_article_url_rule_witness :
  buildArticleUrl (JObj [("STRAPI_URL", JStr "https://x.test")])
                  (JObj [("url", JStr "/blog/5")])
  = Ok (JStr "https://x.test/blog/5")
  /\ buildArticleUrl JUndef (JObj [("url", JStr "https://y.test/a")])
  = Ok (JStr "https://y.test/a")
  /\ buildArticleUrl (JObj [("STRAPI_URL", JStr "https://x.test")])
                     (JObj [("articleId", JNum 42)])
  = Ok (JStr "https://x.test/blog/42")
  /\ buildArticleUrl JUndef (JObj [("url", JArr [JStr "/a"])]) = Throw TypeError.
Proof.
  split; [|split; [|split]].
  - destruct (C5_article_url_rule (JObj [("STRAPI_URL", JStr "https://x.test")])
                                  [("url", JStr "/blog/5")]) as [Hb [_ [H _]]].
    rewrite (H "/blog/5" eq_refl) by discriminate.
    rewrite (Hb "https://x.test" eq_refl) by discriminate. reflexivity.
  - destruct (C5_article_url_rule JUndef [("url", JStr "https://y.test/a")])
      as [_ [_ [H _]]].
    rewrite (H "https://y.test/a" eq_refl) by discriminate. reflexivity.
  - destruct (C5_article_url_rule (JObj [("STRAPI_URL", JStr "https://x.test")])
                                  [("articleId", JNum 42)]) as [_ [_ [_ [_ [H _]]]]].
    rewrite H by reflexivity. reflexivity.
  - destruct (C5_article_url_rule JUndef [("url", JArr [JStr "/a"])])
      as [_ [_ [_ [H _]]]].
    apply H; [reflexivity | discriminate].
Defined.

Lemma C6_getall_precedence_witness :
  Classifier.classify "ALL 5" = Classifier.GetAll /\
  Classifier.classify "   " = Classifier.GetAll.
Proof.
  split; apply C6_getall_precedence.
  - right; right. exists "ALL". split; [reflexivity | cbn; auto].
  - left; reflexivity.
Defined.

Lemma C7_latest_limit_witness :
  (exists pre d rest, "Latest 5 posts" = pre ++ d ++ rest /\ has_digit pre = false /\
     d <> "" /\ all_digits d = true /\ starts_digit rest = false /\
     Classifier.classify "Latest 5 posts"
     = Classifier.GetLatest (number_of_Z (decimal_value d)) /\
     ((decimal_value d < 2 ^ 53)%Z -> number_of_Z (decimal_value d) = JNum (decimal_value d)))
  \/ (has_digit "Latest 5 posts" = false /\
      Classifier.classify "Latest 5 posts" = Classifier.GetLatest (JNum 10)).
Proof.
  apply C7_latest_limit; [reflexivity|].
  exists "Latest". split; [reflexivity | cbn; auto].
Defined.

(** ** Witnesses for C2 to C4 *)

Lemma C2_fetch_text_full_witness :
  exists d,
    transformFetchResult JUndef sparse_article = Ok d /\
    fd_text d =
    first_truthy [prop sparse_article "content"; prop sparse_article "fullContent";
                  prop sparse_article "description"; prop sparse_article "summary"]
                 no_content.
Proof.
  eexists; split; [vm_compute; reflexivity|].
  apply (C2_fetch_text_full JUndef sparse_article). vm_compute. reflexivity.
Defined.

Lemma C3_search_text_bounded_witness :
  exists d, transformSearchArticle demo_platform JUndef 0 long_article = Ok d /\
  exists t, sd_text d = JStr t /\ String.length t <= snippet_max + 3 /\
    (snippet_max < String.length (str_repeat 600 "a"%char) ->
     exists k, k <= snippet_max /\ t = take k (str_repeat 600 "a"%char) ++ "...").
Proof.
  eexists; split; [vm_compute; reflexivity|].
  apply (C3_search_text_bounded demo_platform JUndef 0 long_article);
    vm_compute; reflexivity.
Defined.

Lemma C4_snippet_idempotent_except_late_space_witness :
  snippet_str (snippet_str "hello world again" 15) 15 = snippet_str "hello world again" 15
  /\ snippet_str (snippet_str "aaaaaaaaaaaaaaaaa bbbbbbbb" 20) 20
     = snippet_str "aaaaaaaaaaaaaaaaa bbbbbbbb" 20.
Proof.
  split; apply C4_snippet_idempotent_except_late_space; right.
  - left. vm_compute. discriminate.
  - right. vm_compute. discriminate.
Defined.

(** ** Backend client lemmas *)

Lemma get_truthy (v : jsval) (k : string) : truthy v = true -> get v k = Ok (prop v k).
Proof. destruct v; cbn; congruence. Qed.

Lemma oprop_truthy (v : jsval) (k : string) :
  truthy (oprop v k) = true -> oprop v k = prop v k /\ get v k = Ok (prop v k).
Proof. destruct v; cbn; try discriminate; auto. Qed.

Lemma callStrapiAPI_api_error (pf : platform) (st : Z) (body : string) (data : jsval) :
  json_parse pf body = Some data -> truthy (oprop data "error") = true ->
  callStrapiAPI pf (HttpResp true st body) =
  (msg <- js_ToString (jsor (prop (prop data "error") "message") (JStr "API returned error")) ;;
   Throw (ApiError msg)).
Proof.
  intros Hp He. unfold callStrapiAPI. rewrite Hp.
  destruct (oprop_truthy data "error" He) as [Eo Eg]. rewrite Eo in He.
  rewrite Eg. cbn [bind]. rewrite He, (get_truthy _ _ He). reflexivity.
Qed.

(** The error [new Error(m)] throws: [ApiError (String(m))], or the
    [TypeError] of [String(m)]. *)
Lemma api_error_throw (m : jsval) :
  (msg <- js_ToString m ;; @Throw jsval (ApiError msg))
  = Throw (match js_ToString m with Ok s => ApiError s | Throw e => e end).
Proof. now destruct (js_ToString m). Qed.

Lemma callStrapiAPI_bad_inner (pf : platform) (st : Z) (body : string) (data : jsval) :
  json_parse pf body = Some data ->
  truthy (oprop data "error") = false ->
  truthy (prop data "content") = true -> is_array (prop data "content") = true ->
  truthy (oprop (first_elem (prop data "content")) "text") = true ->
  json_parse pf (js_to_string (oprop (first_elem (prop data "content")) "text")) = None ->
  callStrapiAPI pf (HttpResp true st body) = Ok parse_failure_sentinel.
Proof.
  intros Hp He Hc Ha Ht Hi. unfold callStrapiAPI. rewrite Hp.
  destruct data; try discriminate Hc; cbn [get bind oprop] in *;
    rewrite He, Hc, Ha, Ht; cbn [andb]; unfold js_ToString;
    (destruct (to_string_throws _); [reflexivity | rewrite Hi; reflexivity]).
Qed.

(** ** C8: the search tool never raises *)

Lemma search_tool_run (pf : platform) (env : jsval) (q : string)
    (backend : request -> http_outcome) :
  run (search_tool pf env q) backend =
  match search_body pf env (backend (search_request q)) with
  | Ok r => Returned (PSearch r)
  | Throw _ => Returned (PSearch [])
  end.
Proof. cbn [run search_tool]. destruct (search_body _ _ _); reflexivity. Qed.

Lemma search_body_throw (pf : platform) (env : jsval) (o : http_outcome) (e : error) :
  callStrapiAPI pf o = Throw e -> search_body pf env o = Throw e.
Proof. intros H. unfold search_body. now rewrite H. Qed.

(** C8: whatever the backend does, [search] returns a content envelope and
    never raises; on a transport failure, a non-success status, an upstream
    [error] field, any other exception of the client, or an envelope whose
    inner text does not parse, the envelope holds the empty result list. *)
Theorem C8_search_never_raises (pf : platform) (env : jsval) (q : string)
    (backend : request -> http_outcome) :
  let o := backend (search_request q) in
  (exists docs, run (search_tool pf env q) backend = Returned (PSearch docs))
  /\ (forall e, callStrapiAPI pf o = Throw e ->
        run (search_tool pf env q) backend = Returned (PSearch []))
  /\ (o = NetFail -> run (search_tool pf env q) backend = Returned (PSearch []))
  /\ (forall st body, o = HttpResp false st body ->
        run (search_tool pf env q) backend = Returned (PSearch []))
  /\ (forall st body data, o = HttpResp true st body -> json_parse pf body = Some data ->
        truthy (oprop data "error") = true ->
        run (search_tool pf env q) backend = Returned (PSearch []))
  /\ (forall st body data, o = HttpResp true st body -> json_parse pf body = Some data ->
        truthy (oprop data "error") = false ->
        truthy (prop data "content") = true -> is_array (prop data "content") = true ->
        truthy (oprop (first_elem (prop data "content")) "text") = true ->
        json_parse pf (js_to_string (oprop (first_elem (prop data "content")) "text")) = None ->
        run (search_tool pf env q) backend = Returned (PSearch [])).
Proof.
  cbv zeta. rewrite !search_tool_run.
  assert (Hthrow : forall e, callStrapiAPI pf (backend (search_request q)) = Throw e ->
            match search_body pf env (backend (search_request q)) with
            | Ok r => Returned (PSearch r)
            | Throw _ => Returned (PSearch [])
            end = Returned (PSearch [])).
  { intros e H. now rewrite (search_body_throw pf env _ e H). }
  split; [|split; [exact Hthrow|split; [|split; [|split]]]].
  - destruct (search_body _ _ _); eauto.
  - intros Ho. apply (Hthrow TransportError). now rewrite Ho.
  - intros st body Ho. apply (Hthrow (HttpError st body)). now rewrite Ho.
  - intros st body data Ho Hp He. eapply Hthrow. rewrite Ho.
    rewrite (callStrapiAPI_api_error pf st body data Hp He), api_error_throw.
    reflexivity.
  - intros st body data Ho Hp He Hc Ha Ht Hi.
    unfold search_body. rewrite Ho, (callStrapiAPI_bad_inner pf st body data Hp He Hc Ha Ht Hi).
    reflexivity.
Qed.

Lemma C8_search_never_raises_witness :
  run (search_tool demo_platform JUndef "phishing")
      (fun _ => HttpResp true 200 "envelope(not-json)") = Returned (PSearch []).
Proof.
  destruct (C8_search_never_raises demo_platform JUndef "phishing"
              (fun _ => HttpResp true 200 "envelope(not-json)"))
    as [_ [_ [_ [_ [_ H]]]]].
  eapply H; reflexivity.
Defined.

(** ** C9: the fetch tool propagates every failure *)

Lemma fetch_tool_run (pf : platform) (env : jsval) (id : string)
    (backend : request -> http_outcome) :
  run (fetch_tool pf env id) backend =
  match fetch_body pf env (backend (fetch_request id)) with
  | Ok d => Returned (PFetch d)
  | Throw e => Raised e
  end.
Proof. cbn [run fetch_tool]. destruct (fetch_body _ _ _); reflexivity. Qed.

(** C9: [fetch] raises whatever the client throws (transport failure,
    non-success status, upstream [error] field), raises NotFound when the
    decoded response has no (truthy) [article], and raises the
    normaliser's own exceptions; none of them becomes a returned
    document. *)
Theorem C9_fetch_propagates (pf : platform) (env : jsval) (id : string)
    (backend : request -> http_outcome) :
  let o := backend (fetch_request id) in
  (forall e, callStrapiAPI pf o = Throw e -> run (fetch_tool pf env id) backend = Raised e)
  /\ (o = NetFail -> run (fetch_tool pf env id) backend = Raised TransportError)
  /\ (forall st body, o = HttpResp false st body ->
        run (fetch_tool pf env id) backend = Raised (HttpError st body))
  /\ (forall st body data, o = HttpResp true st body -> json_parse pf body = Some data ->
        truthy (oprop data "error") = true ->
        run (fetch_tool pf env id) backend =
        Raised (match js_ToString (jsor (prop (prop data "error") "message")
                                        (JStr "API returned error")) with
                | Ok s => ApiError s
                | Throw e => e
                end))
  /\ (forall raw, callStrapiAPI pf o = Ok raw -> truthy (oprop raw "article") = false ->
        run (fetch_tool pf env id) backend = Raised NotFound)
  /\ (forall raw e, callStrapiAPI pf o = Ok raw -> truthy (oprop raw "article") = true ->
        transformFetchResult env (oprop raw "article") = Throw e ->
        run (fetch_tool pf env id) backend = Raised e).
Proof.
  cbv zeta. rewrite !fetch_tool_run.
  assert (Hthrow : forall e, callStrapiAPI pf (backend (fetch_request id)) = Throw e ->
            match fetch_body pf env (backend (fetch_request id)) with
            | Ok d => Returned (PFetch d)
            | Throw e0 => Raised e0
            end = Raised e).
  { intros e H. unfold fetch_body. now rewrite H. }
  split; [exact Hthrow|split; [|split; [|split; [|split]]]].
  - intros Ho. apply Hthrow. now rewrite Ho.
  - intros st body Ho. apply Hthrow. now rewrite Ho.
  - intros st body data Ho Hp He. apply Hthrow. rewrite Ho.
    rewrite (callStrapiAPI_api_error pf st body data Hp He). apply api_error_throw.
  - intros raw Hc Ha. unfold fetch_body. rewrite Hc. cbn [bind]. now rewrite Ha.
  - intros raw e Hc Ha Ht. unfold fetch_body. rewrite Hc. cbn [bind].
    rewrite Ha. cbn [negb]. now rewrite Ht.
Qed.

Lemma C9_fetch_propagates_witness :
  run (fetch_tool demo_platform JUndef "5")
      (fun _ => HttpResp true 200 "error(boom)") = Raised (ApiError "boom")
  /\ run (fetch_tool demo_platform JUndef "5")
         (fun _ => HttpResp true 200 "empty") = Raised NotFound.
Proof.
  split.
  - destruct (C9_fetch_propagates demo_platform JUndef "5"
                (fun _ => HttpResp true 200 "error(boom)")) as [_ [_ [_ [H _]]]].
    rewrite (H 200%Z "error(boom)" (JObj [("error", JObj [("message", JStr "boom")])]));
      reflexivity.
  - destruct (C9_fetch_propagates demo_platform JUndef "5"
                (fun _ => HttpResp true 200 "empty")) as [_ [_ [_ [_ [H _]]]]].
    eapply H; reflexivity.
Defined.

(** ** C10: the id sent by [fetch] *)

Lemma digit_val_nondigit (c : ascii) :
  Classifier.is_digit c = false -> digit_val 10 c = None.
Proof.
  unfold Classifier.is_digit, digit_val. intros H.
  assert (Hn : nat_of_ascii c < 48 \/ 57 < nat_of_ascii c).
  { destruct (Nat.leb_spec 48 (nat_of_ascii c)), (Nat.leb_spec (nat_of_ascii c) 57);
      cbn in H; try discriminate; lia. }
  cbv zeta. bool_bounds.
Qed.

(** C10 (counterexample): [parseInt] skips leading white space, honours a
    sign and reads a [0x] prefix as hexadecimal, so " 7", "-3" and "0x10"
    send 7, -3 and 16, where the longest leading decimal-digit prefix gives
    NaN, NaN and 0; and its value is a double, so a run of 20 nines sends
    [10^20] and a run of 400 nines sends [Infinity], written as [null]. *)
Lemma C10_parseInt_counterexample :
  req_args (fetch_request " 7") = [("id", JNum 7)] /\ leading_decimal_value " 7" = JNaN
  /\ req_args (fetch_request "-3") = [("id", JNum (-3))] /\ leading_decimal_value "-3" = JNaN
  /\ req_args (fetch_request "0x10") = [("id", JNum 16)]
  /\ leading_decimal_value "0x10" = JNum 0
  /\ req_args (fetch_request "99999999999999999999") = [("id", JNum 100000000000000000000)]
  /\ leading_decimal_value "99999999999999999999" = JNum 99999999999999999999
  /\ req_args (fetch_request (str_repeat 400 "9"%char)) = [("id", JInf false)]
  /\ json_arg (JInf false) = JNull.
Proof. repeat split; vm_compute; reflexivity. Qed.

(** C10 (amended): [fetch(id)] always sends [get_article_by_id] with
    [id: parseInt(id)], without validating [id]: for an id that starts with
    a decimal digit (and not with [0x]/[0X]) that is the value of its
    leading decimal digits rounded to the nearest double, exact below
    2^53, so "7abc" sends the same request as "7"; an id that is empty or
    starts with a character that is neither white space, a sign nor a
    digit sends NaN; NaN and an infinite result are written as [null] by
    [JSON.stringify]. *)
Theorem C10_fetch_sends_parseInt (pf : platform) (env : jsval) (id : string) :
  first_request (fetch_tool pf env id) =
    Some {| req_name := "get_article_by_id"; req_args := [("id", parseInt id)] |}
  /\ (forall c r, id = String c r -> Classifier.is_digit c = true ->
        ~ (c = "0"%char /\ exists x r', r = String x r' /\ (x = "x"%char \/ x = "X"%char)) ->
        parseInt id = round_number (leading_decimal_value id)
        /\ (forall n, leading_decimal_value id = JNum n -> (n < 2 ^ 53)%Z -> parseInt id = JNum n))
  /\ (forall c r, id = String c r -> is_js_space c = false -> c <> "-"%char ->
        c <> "+"%char -> Classifier.is_digit c = false -> parseInt id = JNaN)
  /\ (id = "" -> parseInt id = JNaN)
  /\ ((parseInt id = JNaN \/ exists neg, parseInt id = JInf neg) ->
      json_arg (parseInt id) = JNull)
  /\ fetch_tool pf env "7abc" = fetch_tool pf env "7".
Proof.
  split; [reflexivity|split; [|split; [|split; [|split]]]].
  - intros c r -> Hc Hx. rewrite parseInt_decimal by assumption.
    split; [reflexivity|]. intros n Hn Hlt. rewrite Hn. cbn [round_number].
    apply number_of_Z_small. split; [|exact Hlt].
    assert (G := leading_digits_nonneg 10 (String c r) ltac:(lia)).
    unfold leading_decimal_value, digits_value in Hn.
    destruct (leading_digits 10 (String c r)); [discriminate|].
    injection Hn as <-. exact G.
  - intros c r -> Hs Hm Hp Hd. unfold parseInt. cbn [trim_start]. rewrite Hs.
    destruct (Ascii.eqb_spec c "-"%char); [contradiction|].
    destruct (Ascii.eqb_spec c "+"%char); [contradiction|].
    assert (Hz : Ascii.eqb c "0"%char = false)
      by (destruct (Ascii.eqb_spec c "0"%char); [subst; discriminate | reflexivity]).
    destruct r as [|x r']; cbn beta iota; rewrite ?Hz; cbn [andb];
      cbn [leading_digits]; now rewrite digit_val_nondigit.
  - intros ->. reflexivity.
  - intros [-> | [neg ->]]; reflexivity.
  - reflexivity.
Qed.

Lemma C10_fetch_sends_parseInt_witness :
  parseInt "7abc" = JNum 7 /\ parseInt "abc" = JNaN.
Proof.
  split.
  - destruct (C10_fetch_sends_parseInt demo_platform JUndef "7abc") as [_ [H _]].
    apply (proj2 (H "7"%char "abc" eq_refl eq_refl ltac:(intros [E _]; discriminate E)));
      reflexivity.
  - destruct (C10_fetch_sends_parseInt demo_platform JUndef "abc") as [_ [_ [H _]]].
    apply (H "a"%char "bc"); try reflexivity; discriminate.
Defined.

(** * Further properties of the code *)

(** ** Helpers *)

Lemma mapM_ok {A B} (f : nat -> A -> exc B) (l : list A) : forall i ys,
  mapM f i l = Ok ys ->
  List.length ys = List.length l /\
  forall j x, nth_error l j = Some x ->
    exists y, nth_error ys j = Some y /\ f (i + j) x = Ok y.
Proof.
  induction l as [|x l IH]; intros i ys H; cbn [mapM] in H.
  - injection H as <-. split; [reflexivity|]. intros [|j] ? E; discriminate.
  - destruct (f i x) as [y|e] eqn:Ef; cbn [bind] in H; [|discriminate].
    destruct (mapM f (S i) l) as [ys'|e] eqn:Em; cbn [bind] in H; [|discriminate].
    injection H as <-. destruct (IH _ _ Em) as [Hl Hn]. split; [cbn; congruence|].
    intros [|j] x' E; cbn in E.
    + injection E as <-. exists y. rewrite Nat.add_0_r. auto.
    + destruct (Hn j x' E) as [y' [E1 E2]]. exists y'. split; [exact E1|].
      replace (i + S j) with (S i + j) by lia. exact E2.
Qed.

Lemma mapM_throw {A B} (f : nat -> A -> exc B) (l : list A) (i j : nat) (x : A) (e : error) :
  nth_error l j = Some x -> f (i + j) x = Throw e -> exists e', mapM f i l = Throw e'.
Proof.
  intros Hx Hf. destruct (mapM f i l) as [ys|e'] eqn:Em; [|eauto].
  destruct (proj2 (mapM_ok f l i ys Em) j x Hx) as [y [_ Hy]]. congruence.
Qed.

Lemma search_body_articles (pf : platform) (env : jsval) (o : http_outcome)
    (raw : jsval) (l : list jsval) :
  callStrapiAPI pf o = Ok raw -> oprop raw "articles" = JArr l ->
  search_body pf env o =
  match l with [] => Ok [] | _ => mapM (transformSearchArticle pf env) 0 l end.
Proof. intros Hc Ha. unfold search_body. rewrite Hc. cbn [bind]. rewrite Ha. destruct l; reflexivity. Qed.

Lemma jsor_truthy_right (a b : jsval) : truthy b = true -> truthy (jsor a b) = true.
Proof. unfold jsor. destruct (truthy a) eqn:E; auto. Qed.

Lemma truthy_nonempty_str (s : string) : s <> "" -> truthy (JStr s) = true.
Proof. intros H. cbn. destruct (String.eqb_spec s ""); [contradiction | reflexivity]. Qed.

Lemma get_take (n j : nat) (s : string) : j < n -> String.get j (take n s) = String.get j s.
Proof.
  revert n s; induction j as [|j IH]; intros [|n] [|c s] H; cbn; try reflexivity; try lia.
  apply IH. lia.
Qed.

Lemma get_some_lt (j : nat) (s : string) (c : ascii) :
  String.get j s = Some c -> j < String.length s.
Proof.
  revert s; induction j as [|j IH]; intros [|d s] H; cbn in *; try discriminate; [lia|].
  apply IH in H. lia.
Qed.

Lemma lastIndexOf_from_spec (c : ascii) (s : string) : forall i, (0 <= i)%Z ->
  (lastIndexOf_from c i s = (-1)%Z /\ forall j, String.get j s <> Some c) \/
  (exists k, lastIndexOf_from c i s = (i + Z.of_nat k)%Z /\ String.get k s = Some c /\
     forall j, k < j -> String.get j s <> Some c).
Proof.
  induction s as [|d s IH]; intros i Hi; cbn [lastIndexOf_from].
  - left. split; [reflexivity|]. intros [|j]; discriminate.
  - destruct (IH (i + 1)%Z ltac:(lia)) as [[E N]|[k [E [G N]]]].
    + rewrite E, Z.eqb_refl. destruct (Ascii.eqb_spec c d) as [<-|Ne].
      * right. exists 0. split; [lia|]. split; [reflexivity|].
        intros [|j] Hj; [lia|]. cbn. apply N.
      * left. split; [reflexivity|]. intros [|j]; cbn; [|apply N].
        intros H; injection H as H; congruence.
    + rewrite E. destruct (Z.eqb_spec (i + 1 + Z.of_nat k) (-1)); [lia|].
      right. exists (S k). split; [lia|]. split; [exact G|].
      intros [|j] Hj; [lia|]. cbn. apply N. lia.
Qed.

Lemma assoc_obj_set (k k' : string) (v : jsval) (fs : list (string * jsval)) :
  assoc k (obj_set fs k' v) = if String.eqb k k' then v else assoc k fs.
Proof.
  induction fs as [|[k0 v0] fs IH]; cbn [obj_set assoc]; [reflexivity|].
  destruct (String.eqb_spec k' k0) as [<-|N]; cbn [assoc].
  - destruct (String.eqb k k'); reflexivity.
  - rewrite IH. destruct (String.eqb_spec k k0) as [->|N0]; [|reflexivity].
    destruct (String.eqb_spec k0 k'); [congruence | reflexivity].
Qed.

Lemma assoc_spread (k : string) (es : list (string * jsval)) : forall base,
  NoDup (map fst es) ->
  assoc k (fold_left (fun acc kv => obj_set acc (fst kv) (snd kv)) es base) =
  if existsb (String.eqb k) (map fst es) then assoc k es else assoc k base.
Proof.
  induction es as [|[k0 v0] es IH]; intros base Hn; [reflexivity|].
  cbn [fold_left map existsb fst snd assoc] in *.
  inversion Hn as [|? ? Hk Hn']; subst.
  rewrite IH by exact Hn'. rewrite assoc_obj_set.
  destruct (String.eqb_spec k k0) as [->|N].
  - cbn [orb]. destruct (existsb (String.eqb k0) (map fst es)) eqn:Ex; [|reflexivity].
    exfalso. apply Hk. apply existsb_exists in Ex as [x [Hx Ex]].
    apply String.eqb_eq in Ex. now subst.
  - cbn [orb]. reflexivity.
Qed.


(** ** Backend client *)

(** An HTTP success whose decoded body has no truthy [error] and a
    [content] array whose first item has a truthy [text] yields the JSON
    decoding of [String(text)]. *)
Theorem callStrapiAPI_unwraps_envelope (pf : platform) (st : Z) (body : string)
    (fs : list (string * jsval)) (item : jsval) (items : list jsval) (t : string)
    (v : jsval) :
  json_parse pf body = Some (JObj fs) ->
  truthy (assoc "error" fs) = false ->
  assoc "content" fs = JArr (item :: items) ->
  truthy (oprop item "text") = true ->
  js_ToString (oprop item "text") = Ok t ->
  json_parse pf t = Some v ->
  callStrapiAPI pf (HttpResp true st body) = Ok v.
Proof.
  intros Hp He Hc Ht Hs Hv. unfold callStrapiAPI. rewrite Hp. cbn [get bind prop].
  rewrite He, Hc. cbn [truthy is_array first_elem andb]. rewrite Ht, Hs, Hv. reflexivity.
Qed.

Lemma callStrapiAPI_unwraps_envelope_witness :
  demo_parse "envelope(article 5)" =
    Some (JObj [("content", JArr [JObj [("type", JStr "text"); ("text", JStr "article 5")]])]) /\
  callStrapiAPI demo_platform (HttpResp true 200 "envelope(article 5)") =
    Ok (JObj [("article", JObj [("id", JNum 5); ("title", JStr "A");
                                ("content", JStr "full text")])]).
Proof.
  split; [reflexivity|].
  apply (callStrapiAPI_unwraps_envelope demo_platform 200 "envelope(article 5)"
           [("content", JArr [JObj [("type", JStr "text"); ("text", JStr "article 5")]])]
           (JObj [("type", JStr "text"); ("text", JStr "article 5")]) [] "article 5");
    reflexivity.
Defined.

(** A decoded body (other than [null]/[undefined]) without a truthy
    [error] that carries no [content] array, or whose first [content] item
    has no truthy [text], is returned unchanged. *)
Theorem callStrapiAPI_passes_other_bodies (pf : platform) (st : Z) (body : string)
    (data : jsval) :
  json_parse pf body = Some data ->
  data <> JUndef -> data <> JNull ->
  truthy (prop data "error") = false ->
  is_array (prop data "content") = false \/
  truthy (oprop (first_elem (prop data "content")) "text") = false ->
  callStrapiAPI pf (HttpResp true st body) = Ok data.
Proof.
  intros Hp Hu Hn He Hc. unfold callStrapiAPI. rewrite Hp.
  assert (Eg : get data "error" = Ok (prop data "error")) by (destruct data; cbn [get]; congruence).
  rewrite Eg. cbn [bind]. rewrite He.
  destruct Hc as [Hc|Hc]; rewrite Hc; rewrite ?andb_false_r; reflexivity.
Qed.

Lemma callStrapiAPI_passes_other_bodies_witness :
  demo_parse "empty" = Some (JObj []) /\
  callStrapiAPI demo_platform (HttpResp true 200 "empty") = Ok (JObj []).
Proof.
  split; [reflexivity|].
  apply (callStrapiAPI_passes_other_bodies demo_platform 200 "empty" (JObj []));
    try reflexivity; try discriminate.
  left; reflexivity.
Defined.

(** An upstream [error] field is reported as [new Error(message)] when
    its [message] is truthy: [ApiError (String(message))], which is the
    message itself for a string, and the [TypeError] of [String()] when
    it throws; and as "API returned error" otherwise (for instance when
    [error] is a plain string). *)
Theorem callStrapiAPI_error_message (pf : platform) (st : Z) (body : string) (data : jsval) :
  json_parse pf body = Some data ->
  truthy (oprop data "error") = true ->
  let m := prop (prop data "error") "message" in
  (truthy m = false ->
   callStrapiAPI pf (HttpResp true st body) = Throw (ApiError "API returned error"))
  /\ (truthy m = true ->
   callStrapiAPI pf (HttpResp true st body) =
   Throw (match js_ToString m with Ok s => ApiError s | Throw e => e end))
  /\ (forall s, m = JStr s -> s <> "" ->
   callStrapiAPI pf (HttpResp true st body) = Throw (ApiError s)).
Proof.
  intros Hp He. cbv zeta. rewrite (callStrapiAPI_api_error pf st body data Hp He).
  rewrite api_error_throw. unfold jsor. split; [|split].
  - intros Hf. now rewrite Hf.
  - intros Ht. now rewrite Ht.
  - intros s Hs Hne. rewrite Hs. cbn [truthy].
    destruct (String.eqb_spec s ""); [contradiction | reflexivity].
Qed.

Lemma callStrapiAPI_error_message_witness :
  demo_parse "error(boom)" = Some (JObj [("error", JObj [("message", JStr "boom")])]) /\
  callStrapiAPI demo_platform (HttpResp true 500 "error(boom)") = Throw (ApiError "boom").
Proof.
  split; [reflexivity|].
  destruct (callStrapiAPI_error_message demo_platform 500 "error(boom)"
              (JObj [("error", JObj [("message", JStr "boom")])]) eq_refl eq_refl)
    as [_ [_ H]].
  apply H; [reflexivity | discriminate].
Defined.

(** An HTTP success whose body is not JSON raises the body's syntax
    error, and one whose body decodes to [null] raises a TypeError (the
    [data.error] read). *)
Theorem callStrapiAPI_bad_body (pf : platform) (st : Z) (body : string) :
  (json_parse pf body = None ->
   callStrapiAPI pf (HttpResp true st body) = Throw BodySyntaxError) /\
  (json_parse pf body = Some JNull ->
   callStrapiAPI pf (HttpResp true st body) = Throw TypeError).
Proof. unfold callStrapiAPI. split; intros H; rewrite H; reflexivity. Qed.

Lemma callStrapiAPI_bad_body_witness :
  demo_parse "not json" = None /\
  callStrapiAPI demo_platform (HttpResp true 200 "not json") = Throw BodySyntaxError.
Proof.
  split; [reflexivity|]. apply (proj1 (callStrapiAPI_bad_body demo_platform 200 "not json")).
  reflexivity.
Defined.

(** ** Search handler (first agent of part_000) *)

(** When the decoded response carries an [articles] array, [search]
    returns either nothing or exactly one result per article, in the
    backend's order, the [i]-th built from the [i]-th article (with the
    [i]-th random draw). *)
Theorem search_results_follow_articles (pf : platform) (env : jsval) (q : string)
    (backend : request -> http_outcome) (raw : jsval) (l : list jsval)
    (docs : list search_doc) :
  callStrapiAPI pf (backend (search_request q)) = Ok raw ->
  oprop raw "articles" = JArr l ->
  run (search_tool pf env q) backend = Returned (PSearch docs) ->
  docs = [] \/
  (List.length docs = List.length l /\
   forall i a, nth_error l i = Some a ->
     exists d, nth_error docs i = Some d /\ transformSearchArticle pf env i a = Ok d).
Proof.
  intros Hc Ha Hr. rewrite search_tool_run, (search_body_articles pf env _ raw l Hc Ha) in Hr.
  destruct l as [|a l].
  - left. congruence.
  - destruct (mapM (transformSearchArticle pf env) 0 (a :: l)) as [ys|e] eqn:Em;
      [|left; congruence].
    injection Hr as <-. right. exact (mapM_ok _ _ 0 ys Em).
Qed.

Definition two_article_platform : platform := {|
  json_parse := fun _ => Some (JObj [("articles", JArr [sparse_article; long_article])]);
  math_random := fun _ => "0.5"
|}.

Lemma search_results_follow_articles_witness :
  exists docs,
  callStrapiAPI two_article_platform (HttpResp true 200 "articles") =
    Ok (JObj [("articles", JArr [sparse_article; long_article])]) /\
  run (search_tool two_article_platform JUndef "phishing") (fun _ => HttpResp true 200 "articles")
    = Returned (PSearch docs) /\
  (docs = [] \/
   (List.length docs = 2 /\
    forall i a, nth_error [sparse_article; long_article] i = Some a ->
      exists d, nth_error docs i = Some d /\
        transformSearchArticle two_article_platform JUndef i a = Ok d)).
Proof.
  eexists. split; [reflexivity|]. split; [reflexivity|].
  apply (search_results_follow_articles two_article_platform JUndef "phishing"
           (fun _ => HttpResp true 200 "articles")
           (JObj [("articles", JArr [sparse_article; long_article])])
           [sparse_article; long_article]); reflexivity.
Defined.

(** One article that fails to transform (for instance a [null] element,
    a truthy [url] that is not a string, or an [id] with an own [toString]
    key) empties the whole search result. *)
Theorem search_drops_all_on_one_failure (pf : platform) (env : jsval) (q : string)
    (backend : request -> http_outcome) (raw : jsval) (l : list jsval)
    (i : nat) (a : jsval) (e : error) :
  callStrapiAPI pf (backend (search_request q)) = Ok raw ->
  oprop raw "articles" = JArr l ->
  nth_error l i = Some a ->
  transformSearchArticle pf env i a = Throw e ->
  run (search_tool pf env q) backend = Returned (PSearch []).
Proof.
  intros Hc Ha Hi Ht. rewrite search_tool_run, (search_body_articles pf env _ raw l Hc Ha).
  destruct (mapM_throw (transformSearchArticle pf env) l 0 i a e Hi Ht) as [e' Em].
  destruct l; [reflexivity|]. rewrite Em. reflexivity.
Qed.

Definition null_article_platform : platform := {|
  json_parse := fun _ => Some (JObj [("articles", JArr [sparse_article; JNull])]);
  math_random := fun _ => "0.5"
|}.

Lemma search_drops_all_on_one_failure_witness :
  run (search_tool null_article_platform JUndef "phishing")
      (fun _ => HttpResp true 200 "articles") = Returned (PSearch []).
Proof.
  apply (search_drops_all_on_one_failure null_article_platform JUndef "phishing"
           (fun _ => HttpResp true 200 "articles")
           (JObj [("articles", JArr [sparse_article; JNull])])
           [sparse_article; JNull] 1 JNull TypeError); reflexivity.
Defined.

(** [search] reads the results from [raw.articles] only: a decoded
    response whose [articles] is not an array (missing, or the response
    being itself a bare array of articles) gives no results. *)
Theorem search_needs_articles_array (pf : platform) (env : jsval) (q : string)
    (backend : request -> http_outcome) (raw : jsval) :
  callStrapiAPI pf (backend (search_request q)) = Ok raw ->
  is_array (oprop raw "articles") = false ->
  run (search_tool pf env q) backend = Returned (PSearch []).
Proof.
  intros Hc Hn. rewrite search_tool_run. unfold search_body. rewrite Hc. cbn [bind].
  unfold jsor. destruct (truthy (oprop raw "articles")); [|reflexivity].
  rewrite Hn. destruct (prop (oprop raw "articles") "length") as [| | | [] | | | | | |];
    reflexivity.
Qed.

Definition bare_array_platform : platform := {|
  json_parse := fun _ => Some (JArr [sparse_article]);
  math_random := fun _ => "0.5"
|}.

Lemma search_needs_articles_array_witness :
  run (search_tool bare_array_platform JUndef "phishing")
      (fun _ => HttpResp true 200 "list") = Returned (PSearch []).
Proof.
  apply (search_needs_articles_array bare_array_platform JUndef "phishing"
           (fun _ => HttpResp true 200 "list") (JArr [sparse_article])); reflexivity.
Defined.

(** ** Normalisers *)

(** A search result always has a truthy title, and a truthy id as long as
    the random draw it may fall back to prints as a non-empty text. *)
Theorem search_doc_id_title_truthy (pf : platform) (env : jsval) (i : nat)
    (a : jsval) (d : search_doc) :
  math_random pf i <> "" ->
  transformSearchArticle pf env i a = Ok d ->
  truthy (sd_id d) = true /\ truthy (sd_title d) = true.
Proof.
  intros Hr H. unfold transformSearchArticle in H. exc_steps H.
  injection H as <-. cbn [sd_id sd_title].
  split; apply jsor_truthy_right; [now apply truthy_nonempty_str | reflexivity].
Qed.

Lemma search_doc_id_title_truthy_witness :
  truthy (sd_id {| sd_id := JStr "0.5"; sd_title := JStr "Untitled Article";
                   sd_text := JStr "D";
                   sd_url := JStr "https://timely-benefit-e63d540317.strapiapp.com/blog/undefined" |})
    = true /\ True.
Proof.
  split; [|exact I].
  apply (search_doc_id_title_truthy demo_platform JUndef 0 (JObj [("description", JStr "D")]));
    [discriminate | reflexivity].
Defined.

(** A fetched document always has a truthy id and title, in all three
    revisions of the fetch normaliser. *)
Theorem fetch_doc_id_title_truthy (env a : jsval) (d : fetch_doc) :
  transformFetchResult env a = Ok d \/ SecondAgent.transformFetchResult a = Ok d \/
  ThirdAgent.transformFetchResult env a = Ok d ->
  truthy (fd_id d) = true /\ truthy (fd_title d) = true.
Proof.
  intros [H|[H|H]].
  - unfold transformFetchResult in H. exc_steps H.
    injection H as <-. split; apply jsor_truthy_right; reflexivity.
  - unfold SecondAgent.transformFetchResult in H. exc_steps H.
    injection H as <-. split; cbn [fd_id fd_title]; apply jsor_truthy_right;
      [reflexivity | apply jsor_truthy_right; reflexivity].
  - unfold ThirdAgent.transformFetchResult in H. exc_steps H.
    injection H as <-. split; apply jsor_truthy_right; reflexivity.
Qed.

Lemma fetch_doc_id_title_truthy_witness :
  truthy (JStr "7") = true /\ truthy (JStr "Untitled Article") = true.
Proof.
  apply (fetch_doc_id_title_truthy JUndef sparse_article
    {| fd_id := JStr "7"; fd_title := JStr "Untitled Article"; fd_text := JStr "D";
       fd_url := JStr "https://timely-benefit-e63d540317.strapiapp.com/blog/7";
       fd_metadata := [("author", JUndef); ("publishedAt", JUndef); ("category", JUndef);
                       ("source", JStr "Keepnet Labs Blog")] |}).
  left. reflexivity.
Defined.

(** A text longer than [maxLength] is cut either at the last space of its
    first [maxLength] characters, when that space lies past 80% of
    [maxLength], or at exactly [maxLength] characters, when no space lies
    past 80% of the window. *)
Theorem snippet_cut_point (s : string) (L : nat) :
  L < String.length s ->
  exists k, snippet_str s L = take k s ++ "..." /\
    ((k = L /\ forall j, j < L -> 4 * L < 5 * j -> String.get j s <> Some " "%char) \/
     (4 * L < 5 * k /\ k < L /\ String.get k s = Some " "%char /\
      forall j, k < j < L -> String.get j s <> Some " "%char)).
Proof.
  intros HL. unfold snippet_str.
  destruct (Nat.leb_spec (String.length s) L) as [H|_]; [lia|].
  assert (Lw : String.length (take L s) = L) by (rewrite take_length; lia).
  unfold lastIndexOf.
  destruct (lastIndexOf_from_spec " "%char (take L s) 0 ltac:(lia))
    as [[E N]|[k [E [G N]]]]; rewrite E.
  - destruct (Z.ltb_spec (4 * Z.of_nat L) (5 * -1)); [lia|].
    exists L. split; [reflexivity|]. left. split; [reflexivity|].
    intros j Hj _. rewrite <- (get_take L j s Hj). apply N.
  - assert (Hk : k < L) by (rewrite <- Lw; exact (get_some_lt _ _ _ G)).
    rewrite (get_take L k s Hk) in G.
    destruct (Z.ltb_spec (4 * Z.of_nat L) (5 * (0 + Z.of_nat k))).
    + exists k. split.
      * rewrite Z.add_0_l, Nat2Z.id, take_take by lia. reflexivity.
      * right. split; [lia|]. split; [exact Hk|]. split; [exact G|].
        intros j [Hj1 Hj2]. rewrite <- (get_take L j s Hj2). apply N. exact Hj1.
    + exists L. split; [reflexivity|]. left. split; [reflexivity|].
      intros j Hj Hj'. rewrite <- (get_take L j s Hj). apply N. lia.
Qed.

Lemma snippet_cut_point_witness :
  10 < String.length (str_repeat 9 "a"%char ++ " bcd") /\
  exists k, snippet_str (str_repeat 9 "a"%char ++ " bcd") 10 =
    take k (str_repeat 9 "a"%char ++ " bcd") ++ "..." /\
    ((k = 10 /\ forall j, j < 10 -> 4 * 10 < 5 * j ->
        String.get j (str_repeat 9 "a"%char ++ " bcd") <> Some " "%char) \/
     (4 * 10 < 5 * k /\ k < 10 /\ String.get k (str_repeat 9 "a"%char ++ " bcd") = Some " "%char /\
      forall j, k < j < 10 -> String.get j (str_repeat 9 "a"%char ++ " bcd") <> Some " "%char)).
Proof.
  split; [cbn; lia|].
  apply (snippet_cut_point (str_repeat 9 "a"%char ++ " bcd") 10). cbn; lia.
Defined.

(** ** Query classifier (second agent of part_000) *)

(** The limit the classifier picks for a recency query is never NaN: it
    is a non-negative integer, or [Infinity] for a digit run whose value
    rounds to 2^1024 or more. *)
Theorem latest_limit_nonneg (q : string) (v : jsval) :
  Classifier.classify q = Classifier.GetLatest v ->
  (exists n, v = JNum n /\ (0 <= n)%Z) \/ v = JInf false.
Proof.
  unfold Classifier.classify.
  destruct (Classifier.isGetAllQuery q); [discriminate|].
  destruct (Classifier.isLatestQuery q); [|discriminate].
  intros H. injection H as <-. unfold Classifier.latest_limit.
  destruct (match_digits_spec q) as [[M _]|[pre [d [rest [_ [_ [Ne [A [_ M]]]]]]]]];
    rewrite M.
  - left. exists 10%Z. split; [reflexivity | lia].
  - destruct d as [|c r]; [congruence|].
    assert (Hc : Classifier.is_digit c = true)
      by (cbn [all_digits] in A; apply andb_true_iff in A; tauto).
    rewrite parseInt_decimal by
      (exact Hc ||
       (intros [_ [x [r' [-> Hx]]]]; cbn [all_digits] in A;
        apply andb_true_iff in A as [_ A]; apply andb_true_iff in A as [Ax _];
        destruct Hx as [->| ->]; discriminate)).
    rewrite leading_decimal_all by exact A. cbn [round_number].
    apply number_of_Z_nonneg. apply decimal_value_acc_nonneg; [lia | exact A].
Qed.

Lemma latest_limit_nonneg_witness :
  Classifier.classify "latest 5" = Classifier.GetLatest (JNum 5) /\
  ((exists n, JNum 5 = JNum n /\ (0 <= n)%Z) \/ JNum 5 = JInf false).
Proof.
  split; [reflexivity|]. apply (latest_limit_nonneg "latest 5"). reflexivity.
Defined.

(** ** Second agent of part_000: fetch metadata *)

(** In the second agent's fetched document, every key of the upstream
    [article.metadata] object overrides the derived metadata ([author],
    [publishedAt], [category], [tags], [updatedAt], [source]); the other
    derived keys keep their values. *)
Theorem second_fetch_metadata_override (article : jsval) (d : fetch_doc)
    (ms : list (string * jsval)) (k : string) :
  SecondAgent.transformFetchResult article = Ok d ->
  prop article "metadata" = JObj ms -> NoDup (map fst ms) ->
  assoc k (fd_metadata d) =
  if existsb (String.eqb k) (map fst ms) then assoc k ms
  else assoc k (SecondAgent.derived_metadata article).
Proof.
  intros H Hm Hn. unfold SecondAgent.transformFetchResult in H. exc_steps H.
  injection H as <-. cbn [fd_metadata]. unfold spread_into. rewrite Hm.
  cbn [spread_entries]. exact (assoc_spread k ms _ Hn).
Qed.

Definition article_with_metadata : jsval :=
  JObj [("id", JNum 3); ("author", JStr "K");
        ("metadata", JObj [("source", JStr "feed")])].

Lemma second_fetch_metadata_override_witness :
  assoc "source"
    (spread_into (SecondAgent.derived_metadata article_with_metadata)
       (JObj [("source", JStr "feed")])) = JStr "feed".
Proof.
  apply (second_fetch_metadata_override article_with_metadata
    {| fd_id := JStr "3"; fd_title := JStr "Untitled Article"; fd_text := no_content;
       fd_url := JStr "https://timely-benefit-e63d540317.strapiapp.com/articles/3";
       fd_metadata := spread_into (SecondAgent.derived_metadata article_with_metadata)
                        (JObj [("source", JStr "feed")]) |}
    [("source", JStr "feed")] "source"); [reflexivity | reflexivity |].
  constructor; [intros [] | constructor].
Defined.

(** ** Third agent of part_001 *)

(** The search metadata's category: the article's own when truthy,
    otherwise the first element of a non-empty [tags] array when truthy,
    otherwise "Blog"; so it is never falsy. *)
Theorem third_category_backfill (article : jsval) :
  ThirdAgent.search_category article =
    (if truthy (prop article "category") then prop article "category"
     else match prop article "tags" with
          | JArr (t :: _) => jsor t (JStr "Blog")
          | _ => JStr "Blog"
          end) /\
  truthy (ThirdAgent.search_category article) = true.
Proof.
  unfold ThirdAgent.search_category. cbv zeta.
  destruct (truthy (prop article "category")) eqn:Hc; cbn [negb andb].
  - rewrite jsor_truthy by exact Hc. auto.
  - assert (E : jsor (if truthy (prop article "tags") && is_array (prop article "tags") &&
                          match prop (prop article "tags") "length" with
                          | JNum n => Z.ltb 0 n | _ => false end
                       then first_elem (prop article "tags") else prop article "category")
                  (JStr "Blog") =
                match prop article "tags" with
                | JArr (t :: _) => jsor t (JStr "Blog")
                | _ => JStr "Blog"
                end).
    { destruct (prop article "tags") as [| | | | | | [|t ts] | | |]; cbn [truthy is_array andb]; rewrite ?andb_false_r; cbn [andb];
        try (apply jsor_falsy; exact Hc); reflexivity. }
    rewrite E. split; [reflexivity|].
    rewrite <- E. apply jsor_truthy_right. reflexivity.
Qed.

(** Whenever the decoded response has no articles ([raw?.articles || []]
    has length 0), the third agent's [search] answers with a message:
    "No articles available" for an empty, blank or "*" query, "No
    articles found for your search query" otherwise. *)
Theorem third_search_empty_message (pf : platform) (env : jsval) (q : string)
    (backend : request -> http_outcome) (raw : jsval) :
  callStrapiAPI pf (backend (ThirdAgent.search_request q)) = Ok raw ->
  prop (jsor (oprop raw "articles") (JArr [])) "length" = JNum 0 ->
  run (ThirdAgent.search_tool pf env q) backend =
  ThirdAgent.SearchMessage
    (if ThirdAgent.blank_query q then "No articles available"
     else "No articles found for your search query") q.
Proof.
  intros Hc Hl. cbn [run ThirdAgent.search_tool]. unfold ThirdAgent.search_after.
  rewrite Hc. cbn [bind]. cbv zeta. rewrite Hl.
  destruct (ThirdAgent.blank_query q); reflexivity.
Qed.

Definition no_article_platform : platform := {|
  json_parse := fun _ => Some (JObj [("articles", JArr [])]);
  math_random := fun _ => "0.5"
|}.

Lemma third_search_empty_message_witness :
  run (ThirdAgent.search_tool no_article_platform JUndef " * ")
      (fun _ => HttpResp true 200 "none") =
  ThirdAgent.SearchMessage "No articles available" " * ".
Proof.
  apply (third_search_empty_message no_article_platform JUndef " * "
           (fun _ => HttpResp true 200 "none") (JObj [("articles", JArr [])]));
    reflexivity.
Defined.

(** The third agent's [search] answers with the "Search failed" document
    when the client throws or when one article fails to transform, where
    the first agent's returns an empty list. *)
Theorem third_search_failure_document (pf : platform) (env : jsval) (q : string)
    (backend : request -> http_outcome) :
  (exists e, callStrapiAPI pf (backend (ThirdAgent.search_request q)) = Throw e) \/
  (exists raw l i a e,
     callStrapiAPI pf (backend (ThirdAgent.search_request q)) = Ok raw /\
     oprop raw "articles" = JArr l /\ nth_error l i = Some a /\
     transformSearchArticle pf env i a = Throw e) ->
  run (ThirdAgent.search_tool pf env q) backend = ThirdAgent.SearchFailed q.
Proof.
  cbn [run ThirdAgent.search_tool]. unfold ThirdAgent.search_after.
  intros [[e Hc]|[raw [l [i [a [e [Hc [Ha [Hi Ht]]]]]]]]]; rewrite Hc; [reflexivity|].
  cbn [bind]. cbv zeta. rewrite Ha.
  assert (Ht3 : ThirdAgent.transformSearchArticle pf env (0 + i) a = Throw e)
    by (unfold ThirdAgent.transformSearchArticle; rewrite Nat.add_0_l, Ht; reflexivity).
  destruct (mapM_throw _ l 0 i a e Hi Ht3) as [e' Em].
  destruct l as [|x l]; [destruct i; discriminate|].
  unfold ThirdAgent.transformSearchResults.
  cbn -[mapM]. rewrite Em. reflexivity.
Qed.

Lemma third_search_failure_document_witness :
  run (ThirdAgent.search_tool demo_platform JUndef "phishing") (fun _ => NetFail) =
  ThirdAgent.SearchFailed "phishing".
Proof.
  apply third_search_failure_document. left. exists TransportError. reflexivity.
Defined.

(** The third agent's [fetch] never raises: it answers "Document not
    found" exactly when the decoded response has no truthy [article], and
    "Fetch failed" exactly when the client or the normaliser throws. *)
Theorem third_fetch_error_documents (pf : platform) (env : jsval) (id : string)
    (backend : request -> http_outcome) :
  let o := backend (fetch_request id) in
  (run (ThirdAgent.fetch_tool pf env id) backend =
     ThirdAgent.FetchErrorDoc "Document not found" id <->
   exists raw, callStrapiAPI pf o = Ok raw /\ truthy (oprop raw "article") = false) /\
  (run (ThirdAgent.fetch_tool pf env id) backend = ThirdAgent.FetchErrorDoc "Fetch failed" id <->
   (exists e, callStrapiAPI pf o = Throw e) \/
   (exists raw e, callStrapiAPI pf o = Ok raw /\ truthy (oprop raw "article") = true /\
      ThirdAgent.transformFetchResult env (oprop raw "article") = Throw e)) /\
  (forall d, run (ThirdAgent.fetch_tool pf env id) backend = ThirdAgent.FetchDoc d <->
   exists raw, callStrapiAPI pf o = Ok raw /\ truthy (oprop raw "article") = true /\
     ThirdAgent.transformFetchResult env (oprop raw "article") = Ok d).
Proof.
  cbv zeta. cbn [run ThirdAgent.fetch_tool].
  destruct (callStrapiAPI pf (backend (fetch_request id))) as [raw|e] eqn:Hc.
  - destruct (truthy (oprop raw "article")) eqn:Ht; cbn [negb run].
    + destruct (ThirdAgent.transformFetchResult env (oprop raw "article")) as [d|e] eqn:Hf;
        cbn [run].
      * split; [|split]; [split; [discriminate|] ..|].
        -- intros [r [Er Tr]]. injection Er as <-. congruence.
        -- intros [[e Er]|[r [e [Er [_ Fr]]]]]; [discriminate|].
           injection Er as <-. congruence.
        -- intros d'. split.
           ++ intros E. injection E as <-. eauto.
           ++ intros [r [Er [_ Fr]]]. injection Er as <-. congruence.
      * split; [|split].
        -- split; [discriminate|]. intros [r [Er Tr]]. injection Er as <-. congruence.
        -- split; [intros _; right; eauto | reflexivity].
        -- intros d. split; [discriminate|].
           intros [r [Er [_ Fr]]]. injection Er as <-. congruence.
    + split; [|split].
      * split; [intros _; eauto | reflexivity].
      * split; [discriminate|].
        intros [[e Er]|[r [e [Er [Tr _]]]]]; [discriminate|]. injection Er as <-. congruence.
      * intros d. split; [discriminate|].
        intros [r [Er [Tr _]]]. injection Er as <-. congruence.
  - cbn [run]. split; [|split].
    + split; [discriminate|]. intros [r [Er _]]. discriminate.
    + split; [intros _; left; eauto | reflexivity].
    + intros d. split; [discriminate|]. intros [r [Er _]]. discriminate.
Qed.

(** ** The older client and src/src/index.ts *)

(** The older client unwraps a truthy [content] whose element [0] has a
    truthy [text] (array or not): it returns the JSON decoding of
    [String(text)], or the text itself when that does not decode or when
    [String(text)] throws. *)
Theorem plain_client_inner_text (pf : platform) (st : Z) (body : string) (data : jsval) :
  json_parse pf body = Some data ->
  data <> JUndef -> data <> JNull ->
  truthy (prop data "error") = false ->
  truthy (prop data "content") = true ->
  truthy (index0 (prop data "content")) = true ->
  truthy (prop (index0 (prop data "content")) "text") = true ->
  let text := prop (index0 (prop data "content")) "text" in
  callStrapiAPI_plain pf (HttpResp true st body) =
  match js_ToString text with
  | Ok t =>
      match json_parse pf t with
      | Some v => Ok v
      | None => Ok text
      end
  | Throw _ => Ok text
  end.
Proof.
  intros Hp Hu Hn He Hc H0 Ht. cbv zeta. unfold callStrapiAPI_plain. rewrite Hp.
  assert (Eg : get data "error" = Ok (prop data "error")) by (destruct data; cbn [get]; congruence).
  rewrite Eg. cbn [bind]. rewrite He, Hc, H0, Ht. reflexivity.
Qed.

Lemma plain_client_inner_text_witness :
  callStrapiAPI_plain demo_platform (HttpResp true 200 "envelope(not-json)") =
  Ok (JStr "not-json").
Proof.
  apply (plain_client_inner_text demo_platform 200 "envelope(not-json)"
           (JObj [("content", JArr [JObj [("type", JStr "text"); ("text", JStr "not-json")]])]));
    try reflexivity; discriminate.
Defined.

(** index.ts's [search] reads results from the decoded response itself:
    when that is not an array (for instance an [{articles: [...]}]
    object), it returns no results. *)
Theorem index_search_needs_bare_array (pf : platform) (args q raw : jsval)
    (backend : request -> http_outcome) :
  get args "query" = Ok q ->
  callStrapiAPI_plain pf
    (backend {| req_name := "search_articles"; req_args := [("query", q); ("limit", JNum 20)] |})
    = Ok raw ->
  is_array raw = false ->
  run (IndexTs.call_tool pf "search" args) backend = IndexTs.Content (PSearch []).
Proof.
  intros Hq Hc Ha. unfold IndexTs.call_tool. cbn [String.eqb Ascii.eqb Bool.eqb].
  rewrite Hq. cbn [run]. rewrite Hc. cbn [bind].
  destruct raw; try discriminate Ha; reflexivity.
Qed.

Definition wrapped_platform : platform := {|
  json_parse := fun _ => Some (JObj [("articles", JArr [sparse_article])]);
  math_random := fun _ => "0.5"
|}.

Lemma index_search_needs_bare_array_witness :
  run (IndexTs.call_tool wrapped_platform "search" (JObj [("query", JStr "phishing")]))
      (fun _ => HttpResp true 200 "articles") = IndexTs.Content (PSearch []).
Proof.
  apply (index_search_needs_bare_array wrapped_platform (JObj [("query", JStr "phishing")])
           (JStr "phishing") (JObj [("articles", JArr [sparse_article])])); reflexivity.
Defined.

(** index.ts's [fetch] has no not-found case: once [String(args.id)]
    succeeds and the request is answered, every decoded response other
    than [null]/[undefined] becomes a document when [String()] can convert
    its own [id], and the document's id is that [id?.toString()] or
    "unknown" (so a wrapped [{article: ...}] response gives the document
    "unknown"); a response [id], or an [args.id], with an own [toString]
    key gives an [isError] result with the [TypeError] instead. *)
Theorem index_fetch_always_document (pf : platform) (args idv : jsval)
    (backend : request -> http_outcome) :
  get args "id" = Ok idv ->
  (to_string_throws idv = true ->
   run (IndexTs.call_tool pf "fetch" args) backend = IndexTs.IsError (IndexTs.Failed TypeError))
  /\ (forall raw,
   to_string_throws idv = false ->
   callStrapiAPI_plain pf
     (backend {| req_name := "get_article_by_id";
                 req_args := [("id", parseInt (js_to_string idv))] |}) = Ok raw ->
   raw <> JUndef -> raw <> JNull ->
   (to_string_throws (prop raw "id") = false ->
    exists d v, opt_toString (prop raw "id") = Ok v /\
      run (IndexTs.call_tool pf "fetch" args) backend = IndexTs.Content (PFetch d) /\
      fd_id d = jsor v (JStr "unknown"))
   /\ (to_string_throws (prop raw "id") = true ->
      run (IndexTs.call_tool pf "fetch" args) backend =
      IndexTs.IsError (IndexTs.Failed TypeError))).
Proof.
  intros Hi. unfold IndexTs.call_tool. cbn [String.eqb Ascii.eqb Bool.eqb].
  rewrite Hi. cbn [bind]. split.
  - intros Hs. unfold js_ToString. rewrite Hs. reflexivity.
  - intros raw Hs Hc Hu Hn. unfold js_ToString. rewrite Hs. cbn [run]. rewrite Hc. cbn [bind].
    unfold IndexTs.transformFetchResult.
    assert (Eg : get raw "id" = Ok (prop raw "id")) by (destruct raw; cbn [get]; congruence).
    rewrite Eg. cbn [bind]. split; intros Ht.
    + assert (Hv : opt_toString (prop raw "id") =
                   Ok (match prop raw "id" with
                       | JUndef | JNull => JUndef
                       | v => JStr (js_to_string v)
                       end)).
      { unfold opt_toString, js_ToString.
        destruct (prop raw "id"); try reflexivity; rewrite Ht; reflexivity. }
      assert (Hf : js_ToString (prop raw "id") = Ok (js_to_string (prop raw "id")))
        by (unfold js_ToString; now rewrite Ht).
      rewrite Hv. unfold IndexTs.article_url_fallback. rewrite Hf. cbn [bind].
      destruct (truthy _); do 2 eexists; (split; [reflexivity | split; reflexivity]).
    + assert (Hv : opt_toString (prop raw "id") = Throw TypeError).
      { unfold opt_toString, js_ToString.
        destruct (prop raw "id"); try (cbn in Ht; discriminate Ht); rewrite Ht; reflexivity. }
      rewrite Hv. reflexivity.
Qed.

Definition wrapped_article_platform : platform := {|
  json_parse := fun _ => Some (JObj [("article", sparse_article)]);
  math_random := fun _ => "0.5"
|}.

Lemma index_fetch_always_document_witness :
  (exists d, run (IndexTs.call_tool wrapped_article_platform "fetch" (JObj [("id", JStr "7")]))
               (fun _ => HttpResp true 200 "article 7") = IndexTs.Content (PFetch d) /\
     fd_id d = JStr "unknown")
  /\ run (IndexTs.call_tool wrapped_article_platform "fetch"
          (JObj [("id", JObj [("toString", JNum 1)])]))
        (fun _ => HttpResp true 200 "article 7") = IndexTs.IsError (IndexTs.Failed TypeError).
Proof.
  split.
  - destruct (index_fetch_always_document wrapped_article_platform (JObj [("id", JStr "7")])
                (JStr "7") (fun _ => HttpResp true 200 "article 7") eq_refl) as [_ H].
    destruct (H (JObj [("article", sparse_article)]) eq_refl eq_refl
                ltac:(discriminate) ltac:(discriminate)) as [H1 _].
    destruct (H1 eq_refl) as [d [v [Ev [Er Ed]]]].
    exists d. split; [exact Er|]. rewrite Ed. cbn in Ev. injection Ev as <-. reflexivity.
  - destruct (index_fetch_always_document wrapped_article_platform
                (JObj [("id", JObj [("toString", JNum 1)])]) (JObj [("toString", JNum 1)])
                (fun _ => HttpResp true 200 "article 7") eq_refl) as [H _].
    apply H. reflexivity.
Defined.
